(** * The AnyGrasp WebSocket gateway (server/main.py)

    A shallow embedding of the request handler of the grasp server and the
    properties of its message pipeline: decoding of the request, the call of
    the grasp engine, suppression and ranking, the encoding of the response
    and the treatment of errors on a session.

    Python values received from and sent to the socket are modelled as a JSON
    tree; finite floating point numbers are modelled by rationals; the
    handler is a state and exception monad over the process state (the
    environment, the engine object, the connection manager, the transport)
    that records what the process does in a trace. *)

From Stdlib Require Import QArith.
From stdpp Require Import gmap strings list sorting pretty.

Local Open Scope string_scope.
Local Set Warnings "-register-all".

(** ** Python values and exceptions *)

(** What [receive_json] yields and [send_json] takes.  A [PyDict] lists the
    members of the object in document order. *)
Inductive py : Type :=
| PyNone
| PyBool (b : bool)
| PyInt (n : Z)
| PyFloat (x : Q)
| PyStr (s : string)
| PyList (items : list py)
| PyDict (members : list (string * py)).

(** The two classes of exception the handler tells apart; [Exception]
    carries [str(e)]. *)
Inductive exn : Type :=
| WebSocketDisconnect
| Exception (msg : string).

Definition result (A : Type) : Type := (exn + A)%type.

(** Member lookup of a parsed object: a repeated key keeps its last value. *)
Fixpoint dict_lookup (key : string) (members : list (string * py)) : option py :=
  match members with
  | [] => None
  | (k, v) :: rest =>
      match dict_lookup key rest with
      | Some v' => Some v'
      | None => if String.eqb key k then Some v else None
      end
  end.

(** [data[key]] for a string key. *)
Definition getitem (data : py) (key : string) : result py :=
  match data with
  | PyDict members =>
      match dict_lookup key members with
      | Some v => inr v
      | None => inl (Exception ("'" ++ key ++ "'"))
      end
  | PyList _ => inl (Exception "list indices must be integers or slices, not str")
  | PyStr _ => inl (Exception "string indices must be integers, not 'str'")
  | PyInt _ => inl (Exception "'int' object is not subscriptable")
  | PyFloat _ => inl (Exception "'float' object is not subscriptable")
  | PyBool _ => inl (Exception "'bool' object is not subscriptable")
  | PyNone => inl (Exception "'NoneType' object is not subscriptable")
  end.

(** [data.get(key, default)]. *)
Definition dict_get (data : py) (key : string) (default : py) : result py :=
  match data with
  | PyDict members =>
      match dict_lookup key members with
      | Some v => inr v
      | None => inr default
      end
  | _ => inl (Exception "object has no attribute 'get'")
  end.

(** [s.lower()] on the ASCII letters. *)
Definition lower_ascii (c : Ascii.ascii) : Ascii.ascii :=
  let n := Ascii.nat_of_ascii c in
  if (65 <=? n)%nat && (n <=? 90)%nat then Ascii.ascii_of_nat (n + 32) else c.

Fixpoint lower (s : string) : string :=
  match s with
  | EmptyString => EmptyString
  | String c rest => String (lower_ascii c) (lower rest)
  end.

(** [int(x)] of a float: truncation towards zero. *)
Definition py_int (x : Q) : Z := Z.quot (Qnum x) (Z.pos (Qden x)).

(** The stop index of the slice [gg[0:max_grasps]]: what the caller passes
    for [max_grasps] is [None], an integer or a string. *)
Inductive py_stop : Type :=
| StopNone
| StopInt (n : Z)
| StopStr (s : string).

(** ** Grasp candidates (graspnetAPI's Grasp, as far as the server reads it) *)

(** [height] and [object_id] are read behind [hasattr], so a candidate may
    lack them. *)
Record Grasp : Type := {
  score : Q;
  width : Q;
  height : option Q;
  depth : Q;
  translation : list Q;
  rotation_matrix : list (list Q);
  object_id : option Q
}.

Definition GraspGroup : Type := list Grasp.

(** Slicing [gg[0:stop]] of a group of [len(gg)] candidates. *)
Definition slice_to (stop : py_stop) (gg : GraspGroup) : result GraspGroup :=
  match stop with
  | StopNone => inr gg
  | StopInt n =>
      if (n <? 0)%Z
      then inr (take (Z.to_nat (Z.of_nat (length gg) + n)) gg)
      else inr (take (Z.to_nat n) gg)
  | StopStr _ =>
      inl (Exception "slice indices must be integers or None or have an __index__ method")
  end.

(** The dictionary built for one candidate in the loop of
    [prepare_grasp_data]. *)
Definition grasp_dict (g : Grasp) : py :=
  PyDict [
    ("score", PyFloat (score g));
    ("width", PyFloat (width g));
    ("height", PyFloat (match height g with Some h => h | None => 0.03%Q end));
    ("depth", PyFloat (depth g));
    ("translation", PyList (map PyFloat (translation g)));
    ("rotation_matrix", PyList (map (fun row => PyList (map PyFloat row)) (rotation_matrix g)));
    ("object_id", PyInt (match object_id g with Some i => py_int i | None => (-1)%Z end))
  ].

(** The candidates [prepare_grasp_data] encodes: none of an empty group,
    else [gg_pick = gg[0:max_grasps]]. *)
Definition gg_pick (gg : GraspGroup) (max_grasps : py_stop) : result GraspGroup :=
  if (length gg =? 0)%nat then inr [] else slice_to max_grasps gg.

(** [prepare_grasp_data(gg, max_grasps)]. *)
Definition prepare_grasp_data (gg : GraspGroup) (max_grasps : py_stop) : result (list py) :=
  match gg_pick gg max_grasps with
  | inl e => inl e
  | inr picked => inr (map grasp_dict picked)
  end.

(** ** Ranking *)

(** Modelled from the spec: [GraspGroup.sort_by_score] belongs to
    graspnetAPI, which is not among the sources; the description of the
    post-processor gives it as a stable sort, descending by score, ties in
    the order of its input. *)
Fixpoint insert_by_score (g : Grasp) (gg : GraspGroup) : GraspGroup :=
  match gg with
  | [] => [g]
  | h :: rest =>
      if Qle_bool (score h) (score g) then g :: h :: rest
      else h :: insert_by_score g rest
  end.

Fixpoint sort_by_score (gg : GraspGroup) : GraspGroup :=
  match gg with
  | [] => []
  | g :: rest => insert_by_score g (sort_by_score rest)
  end.

(** ** The process: engine, environment, connections, transport *)

Section Server.

(** Elements of a float32 array, and numpy's coercion of a value that is
    not a list to one (numbers are rounded, other values are parsed or
    refused). *)
Variable F32 : Type.
Variable as_float32 : py -> result F32.

(** The point cloud the engine hands back; the handler drops it. *)
Variable Cloud : Type.

(** [float(s)] of an environment string. *)
Variable py_float : string -> result Q.

Inductive ndarray : Type :=
| NdScalar (x : F32)
| NdArray (items : list ndarray).

(** The shape numpy discovers for a nested list, [None] when it is
    ragged. *)
Fixpoint discover_shape (v : py) : option (list nat) :=
  match v with
  | PyList items =>
      match map discover_shape items with
      | [] => Some [0%nat]
      | None :: _ => None
      | Some s :: rest =>
          if forallb (fun o => bool_decide (o = Some s)) rest
          then Some (length items :: s) else None
      end
  | _ => Some []
  end.

Fixpoint fill_array (v : py) : result ndarray :=
  match v with
  | PyList items =>
      let fill_items :=
        fix fill_items (l : list py) : result (list ndarray) :=
          match l with
          | [] => inr []
          | x :: rest =>
              match fill_array x with
              | inl e => inl e
              | inr a =>
                  match fill_items rest with
                  | inl e => inl e
                  | inr r => inr (a :: r)
                  end
              end
          end in
      match fill_items items with
      | inl e => inl e
      | inr l => inr (NdArray l)
      end
  | leaf =>
      match as_float32 leaf with
      | inl e => inl e
      | inr x => inr (NdScalar x)
      end
  end.

(** [np.array(v, dtype=np.float32)]. *)
Definition np_array (v : py) : result ndarray :=
  match discover_shape v with
  | None => inl (Exception "setting an array element with a sequence.")
  | Some _ => fill_array v
  end.

(** [class AnyGraspConfig]. *)
Record AnyGraspConfig : Type := {
  checkpoint_path : option string;
  max_gripper_width : Q;
  gripper_height : Q;
  top_down_grasp : bool;
  debug : bool
}.

(** The engine object [AnyGrasp(config)] of gsnet: loading of the network,
    detection, and the suppression operation of the groups it returns. *)
Variable load_net : AnyGraspConfig -> option exn.
Variable get_grasp :
  AnyGraspConfig -> ndarray -> ndarray -> py -> bool -> bool -> bool ->
  result (GraspGroup * Cloud).
Variable nms : GraspGroup -> GraspGroup.

Definition WebSocket : Type := nat.

(** What the process does, in order. *)
Inductive event : Type :=
| EvGetenv (key : string)
| EvLoadNet (cfg : AnyGraspConfig)
| EvAccept (ws : WebSocket)
| EvGetGrasp (points colors : ndarray) (lims : py)
    (apply_object_mask dense_grasp collision_detection : bool)
| EvSendJson (ws : WebSocket) (data : py)
| EvPrint (line : string).

(** The state of the process.  [send_faults] scripts the transport: each
    send takes the next entry, and raises it if it is an exception; with no
    entry left the send goes through. *)
Record world : Type := {
  environ : gmap string string;
  anygrasp : option AnyGraspConfig;
  active_connections : list WebSocket;
  send_faults : list (option exn);
  trace : list event
}.

Definition M (A : Type) : Type := world -> result A * world.

Definition ret {A} (a : A) : M A := fun w => (inr a, w).
Definition raise {A} (e : exn) : M A := fun w => (inl e, w).
Definition bind {A B} (m : M A) (k : A -> M B) : M B :=
  fun w => match m w with
           | (inl e, w') => (inl e, w')
           | (inr a, w') => k a w'
           end.
Definition lift {A} (r : result A) : M A := fun w => (r, w).

(** [try: body except Exception-or-disconnect as e: handler e]. *)
Definition try_except {A} (body : M A) (handler : exn -> M A) : M A :=
  fun w => match body w with
           | (inl e, w') => handler e w'
           | (inr a, w') => (inr a, w')
           end.

Definition log (ev : event) : M unit :=
  fun w => (inr tt,
            {| environ := environ w; anygrasp := anygrasp w;
               active_connections := active_connections w;
               send_faults := send_faults w; trace := trace w ++ [ev] |}).

Notation "x <- m ;; k" := (bind m (fun x => k))
  (at level 100, m at next level, right associativity).
Notation "m ;; k" := (bind m (fun _ => k))
  (at level 100, right associativity).

Definition print (line : string) : M unit := log (EvPrint line).

(** [os.getenv(key)] and [os.getenv(key, default)]. *)
Definition getenv (key : string) : M (option string) :=
  log (EvGetenv key) ;; fun w => (inr (environ w !! key), w).

Definition getenv_or (key default : string) : M string :=
  v <- getenv key ;;
  ret (match v with Some s => s | None => default end).

(** [AnyGraspConfig()]. *)
Definition new_AnyGraspConfig : M AnyGraspConfig :=
  cp <- getenv "CHECKPOINT_PATH" ;;
  w_s <- getenv_or "MAX_GRIPPER_WIDTH" "0.1" ;;
  w <- lift (py_float w_s) ;;
  h_s <- getenv_or "GRIPPER_HEIGHT" "0.03" ;;
  h <- lift (py_float h_s) ;;
  t_s <- getenv_or "TOP_DOWN_GRASP" "false" ;;
  d_s <- getenv_or "DEBUG" "false" ;;
  ret {| checkpoint_path := cp;
         max_gripper_width := w;
         gripper_height := h;
         top_down_grasp := String.eqb (lower t_s) "true";
         debug := String.eqb (lower d_s) "true" |}.

Definition set_anygrasp (cfg : AnyGraspConfig) : M unit :=
  fun w => (inr tt,
            {| environ := environ w; anygrasp := Some cfg;
               active_connections := active_connections w;
               send_faults := send_faults w; trace := trace w |}).

(** [startup_event]. *)
Definition startup_event : M unit :=
  config <- new_AnyGraspConfig ;;
  print ("Initializing AnyGrasp with checkpoint: " ++
         match checkpoint_path config with Some p => p | None => "None" end) ;;
  set_anygrasp config ;;
  log (EvLoadNet config) ;;
  match load_net config with
  | Some e => raise e
  | None => print "AnyGrasp initialization complete"
  end.

(** [ConnectionManager.connect]; the handshake is taken to succeed. *)
Definition connect (ws : WebSocket) : M unit :=
  log (EvAccept ws) ;;
  fun w => (inr tt,
            {| environ := environ w; anygrasp := anygrasp w;
               active_connections := active_connections w ++ [ws];
               send_faults := send_faults w; trace := trace w |}).

(** [list.remove]: the first occurrence goes. *)
Fixpoint list_remove (ws : WebSocket) (l : list WebSocket) : list WebSocket :=
  match l with
  | [] => []
  | x :: rest => if Nat.eqb x ws then rest else x :: list_remove ws rest
  end.

(** [ConnectionManager.disconnect]. *)
Definition disconnect (ws : WebSocket) : M unit :=
  fun w =>
    if existsb (Nat.eqb ws) (active_connections w)
    then (inr tt,
          {| environ := environ w; anygrasp := anygrasp w;
             active_connections := list_remove ws (active_connections w);
             send_faults := send_faults w; trace := trace w |})
    else (inl (Exception "list.remove(x): x not in list"), w).

Definition next_send_fault : M (option exn) :=
  fun w =>
    match send_faults w with
    | [] => (inr None, w)
    | f :: rest =>
        (inr f,
         {| environ := environ w; anygrasp := anygrasp w;
            active_connections := active_connections w;
            send_faults := rest; trace := trace w |})
    end.

(** [ConnectionManager.send_json]. *)
Definition send_json (data : py) (ws : WebSocket) : M unit :=
  f <- next_send_fault ;;
  match f with
  | Some e => raise e
  | None => log (EvSendJson ws data)
  end.

(** The ranking step of [process_grasp]:
    [if len(gg) > 0: gg = gg.nms().sort_by_score()]. *)
Definition nms_sort (gg : GraspGroup) : GraspGroup :=
  if (0 <? length gg)%nat then sort_by_score (nms gg) else gg.

(** [process_grasp(points, colors, lims)]. *)
Definition process_grasp (points colors : ndarray) (lims : py) : M (GraspGroup * Cloud) :=
  fun w =>
    match anygrasp w with
    | None => (inl (Exception "'NoneType' object has no attribute 'get_grasp'"), w)
    | Some engine =>
        (log (EvGetGrasp points colors lims true false true) ;;
         r <- lift (get_grasp engine points colors lims true false true) ;;
         ret (nms_sort (fst r), snd r)) w
    end.

Definition default_lims : py :=
  PyList [PyFloat (-0.19)%Q; PyFloat 0.12%Q; PyFloat 0.02%Q;
          PyFloat 0.15%Q; PyFloat 0.0%Q; PyFloat 1.0%Q].

(** The first statements of the loop body of [grasp_websocket]: the two
    arrays and the workspace limits taken out of the received [data]. *)
Definition extract_input (data : py) : result (ndarray * ndarray * py) :=
  match getitem data "points" with
  | inl e => inl e
  | inr raw_points =>
      match np_array raw_points with
      | inl e => inl e
      | inr points =>
          match getitem data "colors" with
          | inl e => inl e
          | inr raw_colors =>
              match np_array raw_colors with
              | inl e => inl e
              | inr colors =>
                  match dict_get data "lims" default_lims with
                  | inl e => inl e
                  | inr lims => inr (points, colors, lims)
                  end
              end
          end
      end
  end.

(** [os.getenv("MAX_GRASPS")] as the [max_grasps] argument. *)
Definition stop_of_env (v : option string) : py_stop :=
  match v with
  | Some s => StopStr s
  | None => StopNone
  end.

(** The body of the loop of [grasp_websocket], from the received [data]
    on. *)
Definition handle_message (ws : WebSocket) (data : py) : M unit :=
  input <- lift (extract_input data) ;;
  r <- process_grasp (fst (fst input)) (snd (fst input)) (snd input) ;;
  max_grasps <- getenv "MAX_GRASPS" ;;
  result <- lift (prepare_grasp_data (fst r) (stop_of_env max_grasps)) ;;
  send_json (PyList result) ws.

(** What [receive_json] does: it yields the next message or raises (the
    peer left, or the frame is not JSON). *)
Inductive received : Type :=
| Message (data : py)
| Raised (e : exn).

(** Where the handler is when the run ends: suspended in [receive_json],
    as nothing more has arrived, or returned. *)
Inductive handler_state : Type :=
| AwaitingMessage
| Returned.

(** [while True: ...] over what arrives on the socket. *)
Fixpoint serve (ws : WebSocket) (inbox : list received) : M handler_state :=
  match inbox with
  | [] => ret AwaitingMessage
  | Message data :: rest => handle_message ws data ;; serve ws rest
  | Raised e :: _ => raise e
  end.

Definition error_message (msg : string) : py := PyDict [("error", PyStr msg)].

(** [grasp_websocket(websocket)]. *)
Definition grasp_websocket (ws : WebSocket) (inbox : list received) : M handler_state :=
  connect ws ;;
  try_except (serve ws inbox)
    (fun e =>
       match e with
       | WebSocketDisconnect =>
           disconnect ws ;;
           print "Client disconnected" ;;
           ret Returned
       | Exception msg =>
           print ("Error processing grasp: " ++ msg) ;;
           send_json (error_message msg) ws ;;
           disconnect ws ;;
           ret Returned
       end).

(** [health_check]. *)
Definition health_check : M py :=
  fun w => (inr (PyDict [("status", PyStr "healthy");
                         ("anygrasp_loaded",
                          PyBool (match anygrasp w with Some _ => true | None => false end))]),
            w).

(** [get_ip], given what the socket module answers. *)
Definition get_ip (hostname ip_address : string) : M py :=
  port <- getenv_or "PORT" "8000" ;;
  ret (PyDict [("hostname", PyStr hostname);
               ("ip_address", PyStr ip_address);
               ("port", PyStr port)]).

(** The post-processing of a group between the engine and the encoder:
    the ranking step of [process_grasp], then the selection of
    [prepare_grasp_data]. *)
Definition post_process (max_grasps : py_stop) (gg : GraspGroup) : result GraspGroup :=
  gg_pick (nms_sort gg) max_grasps.

End Server.

Arguments NdScalar {F32} x.
Arguments NdArray {F32} items.
Arguments EvGetenv {F32} key.
Arguments EvLoadNet {F32} cfg.
Arguments EvAccept {F32} ws.
Arguments EvGetGrasp {F32} points colors lims
  apply_object_mask dense_grasp collision_detection.
Arguments EvSendJson {F32} ws data.
Arguments EvPrint {F32} line.
Arguments Build_world {F32} environ anygrasp active_connections send_faults trace.
Arguments environ {F32} w.
Arguments anygrasp {F32} w.
Arguments active_connections {F32} w.
Arguments send_faults {F32} w.
Arguments trace {F32} w.
Arguments ret {F32 A} a w.
Arguments raise {F32 A} e w.
Arguments bind {F32 A B} m k w.
Arguments lift {F32 A} r w.
Arguments try_except {F32 A} body handler w.
Arguments log {F32} ev w.
Arguments print {F32} line w.
Arguments getenv {F32} key w.
Arguments getenv_or {F32} key default w.
Arguments new_AnyGraspConfig {F32} py_float w.
Arguments set_anygrasp {F32} cfg w.
Arguments startup_event {F32} py_float load_net w.
Arguments connect {F32} ws w.
Arguments disconnect {F32} ws w.
Arguments next_send_fault {F32} w.
Arguments send_json {F32} data ws w.
Arguments np_array {F32} as_float32 v.
Arguments fill_array {F32} as_float32 v.
Arguments extract_input {F32} as_float32 data.
Arguments process_grasp {F32 Cloud} get_grasp nms points colors lims w.
Arguments handle_message {F32} as_float32 {Cloud} get_grasp nms ws data w.
Arguments serve {F32} as_float32 {Cloud} get_grasp nms ws inbox w.
Arguments grasp_websocket {F32} as_float32 {Cloud} get_grasp nms ws inbox w.
Arguments health_check {F32} w.
Arguments get_ip {F32} hostname ip_address w.

(** The block under [if __name__ == "__main__"], up to the call of
    [uvicorn.run], whose host and port it yields; [py_int_of] is [int(s)]
    of a string. *)
Definition main_block {F32} (py_int_of : string -> result Z) : M F32 (string * Z) :=
  bind (getenv_or "PORT" "8000") (fun port_s =>
  bind (lift (py_int_of port_s)) (fun port =>
  bind (getenv_or "HOST" "0.0.0.0") (fun host =>
  bind (print ("Starting server on " ++ host ++ ":" ++ pretty port)) (fun _ =>
  ret (host, port))))).

(** ** A test double

    A deterministic engine in place of the network, numbers coerced as
    they are, candidates with a score and nothing else of interest. *)
Module Double.

Definition as_float32 (v : py) : result Q :=
  match v with
  | PyFloat x => inr x
  | PyInt n => inr (inject_Z n)
  | PyBool b => inr (if b then 1%Q else 0%Q)
  | _ => inl (Exception "float() argument must be a string or a real number")
  end.

Definition py_float (s : string) : result Q :=
  if String.eqb s "0.1" then inr 0.1%Q
  else if String.eqb s "0.03" then inr 0.03%Q
  else inl (Exception "could not convert string to float").

Definition candidate (s : Q) : Grasp :=
  {| score := s; width := 0.08%Q; height := None; depth := 0.02%Q;
     translation := [0%Q; 0%Q; 0.5%Q];
     rotation_matrix := [[1%Q; 0%Q; 0%Q]; [0%Q; 1%Q; 0%Q]; [0%Q; 0%Q; 1%Q]];
     object_id := None |}.

Definition load_net (cfg : AnyGraspConfig) : option exn := None.

(** No near-duplicates among the candidates: suppression keeps all. *)
Definition nms (gg : GraspGroup) : GraspGroup := gg.

(** The engine answers with [out] whatever it is given. *)
Definition fixed_engine (out : result (GraspGroup * unit))
  (cfg : AnyGraspConfig) (points colors : ndarray Q) (lims : py)
  (apply_object_mask dense_grasp collision_detection : bool) : result (GraspGroup * unit) :=
  out.

(** The engine refuses a cloud without points and finds two candidates in
    any other. *)
Definition strict_engine
  (cfg : AnyGraspConfig) (points colors : ndarray Q) (lims : py)
  (apply_object_mask dense_grasp collision_detection : bool) : result (GraspGroup * unit) :=
  match points with
  | NdArray [] => inl (Exception "empty point cloud")
  | _ => inr ([candidate 0.9%Q; candidate 0.95%Q], tt)
  end.

Definition config : AnyGraspConfig :=
  {| checkpoint_path := Some "log/checkpoint_detection.tar";
     max_gripper_width := 0.1%Q; gripper_height := 0.03%Q;
     top_down_grasp := false; debug := false |}.

(** A process after start-up, with the given environment, no session and
    a transport that works. *)
Definition started (env : gmap string string) : world Q :=
  {| environ := env; anygrasp := Some config; active_connections := [];
     send_faults := []; trace := [] |}.

Definition point (x y z : Q) : py := PyList [PyFloat x; PyFloat y; PyFloat z].

Definition four_points : py :=
  PyList [point 0 0 0.5; point 0.1 0 0.5; point 0 0.1 0.5; point 0.1 0.1 0.5]%Q.

Definition request : py :=
  PyDict [("points", four_points); ("colors", four_points)].

(** The engine of the scenario of the specification: two candidates with
    scores 0.9 and 0.95, in that order. *)
Definition engine :=
  fixed_engine (inr ([candidate 0.9%Q; candidate 0.95%Q], tt)).

(** An engine that finds nothing. *)
Definition blind_engine := fixed_engine (inr ([], tt)).

(** An engine that finds twenty-one candidates, with scores 0.21 down to
    0.01. *)
Definition twenty_one : GraspGroup :=
  map (fun n => candidate (Z.of_nat n # 100)) (rev (seq 1 21)).

Definition keen_engine := fixed_engine (inr (twenty_one, tt)).

(** A process before start-up. *)
Definition fresh (env : gmap string string) : world Q :=
  {| environ := env; anygrasp := None; active_connections := [];
     send_faults := []; trace := [] |}.

(** One point and no color. *)
Definition uneven_request : py :=
  PyDict [("points", PyList [point 0 0 0.5]%Q); ("colors", PyList [])].

(** A box whose x bounds are the wrong way round. *)
Definition inverted : py :=
  PyList [PyFloat 1; PyFloat 0; PyFloat 0; PyFloat 1; PyFloat 0; PyFloat 1]%Q.

Definition inverted_request : py :=
  PyDict [("points", four_points); ("colors", four_points); ("lims", inverted)].

(** A cloud without points. *)
Definition empty_request : py :=
  PyDict [("points", PyList []); ("colors", PyList [])].

Definition four_points_array : ndarray Q :=
  NdArray [NdArray [NdScalar 0; NdScalar 0; NdScalar 0.5];
           NdArray [NdScalar 0.1; NdScalar 0; NdScalar 0.5];
           NdArray [NdScalar 0; NdScalar 0.1; NdScalar 0.5];
           NdArray [NdScalar 0.1; NdScalar 0.1; NdScalar 0.5]]%Q.

(** Session 7 after one request was answered, and after the handling of a
    following message without "points" has raised. *)
Definition opened : world Q :=
  (bind (connect 7) (fun _ => serve as_float32 engine nms 7 [Message request])
     (started ∅)).2.

Definition failed : world Q :=
  (handle_message as_float32 engine nms 7 (PyDict []) opened).2.

Definition answered : world Q :=
  (handle_message as_float32 engine nms 7 request (started ∅)).2.

(** A process after start-up whose transport takes the next send and
    fails on the one after it. *)
Definition failing_after_one : world Q :=
  {| environ := ∅; anygrasp := Some config; active_connections := [];
     send_faults := [None; Some (Exception "Cannot call send once a close message has been sent.")];
     trace := [] |}.

Definition opened_failing : world Q :=
  (bind (connect 7) (fun _ => serve as_float32 engine nms 7 [Message request])
     failing_after_one).2.

Definition failed_failing : world Q :=
  (handle_message as_float32 engine nms 7 (PyDict []) opened_failing).2.

Definition left : world Q :=
  (bind (connect 7)
     (fun _ => serve as_float32 engine nms 7 [Message request; Raised WebSocketDisconnect])
     (started ∅)).2.

(** A candidate told from [candidate] by its width. *)
Definition wide (s : Q) : Grasp :=
  {| score := s; width := 0.1%Q; height := None; depth := 0.02%Q;
     translation := [0%Q; 0%Q; 0.5%Q];
     rotation_matrix := [[1%Q; 0%Q; 0%Q]; [0%Q; 1%Q; 0%Q]; [0%Q; 0%Q; 1%Q]];
     object_id := None |}.

(** An engine whose first and third candidates have the same score. *)
Definition tied : GraspGroup := [candidate 0.9%Q; candidate 0.95%Q; wide 0.9%Q].

Definition tied_engine := fixed_engine (inr (tied, tt)).

Definition answered_tied : world Q :=
  (handle_message as_float32 tied_engine nms 7 request (started ∅)).2.

Definition waiting : world Q :=
  (grasp_websocket as_float32 engine nms 7 [Message request; Message request]
     (started ∅)).2.

Definition four_rows : list py :=
  [point 0 0 0.5; point 0.1 0 0.5; point 0 0.1 0.5; point 0.1 0.1 0.5]%Q.

(** A plain way of writing values, in place of Python's. *)
Definition format_float (x : Q) : string :=
  pretty (Qnum x) ++ "/" ++ pretty (Z.pos (Qden x)).

Definition format_int (n : Z) : result string := inr (pretty n).

Definition py_str (v : py) : string :=
  match v with
  | PyList items => "[" ++ pretty (length items) ++ " items]"
  | _ => "<value>"
  end.

Definition round4 (x : Q) : Q := x.

End Double.

(** ** The clients (server/client_example.py and server/test.py)

    What a client prints is kept in order, beside what it returns or
    raises.  A response that arrived is a JSON tree, so the operations the
    clients apply to it are given on every kind of value. *)

Definition Out (A : Type) : Type := (list string * result A)%type.

Definition out_ret {A} (a : A) : Out A := ([], inr a).

Definition out_lift {A} (r : result A) : Out A := ([], r).

Definition out_bind {A B} (m : Out A) (k : A -> Out B) : Out B :=
  match m with
  | (lines, inl e) => (lines, inl e)
  | (lines, inr a) => ((lines ++ fst (k a))%list, snd (k a))
  end.

(** [print(line)]. *)
Definition say (line : string) : Out unit := ([line], inr tt).

(** [str(e)]; the clients meet [Exception] alone. *)
Definition exn_str (e : exn) : string :=
  match e with
  | Exception msg => msg
  | WebSocketDisconnect => ""
  end.

(** [try: body except Exception as e: handler(str(e))]. *)
Definition out_try {A} (body : Out A) (handler : string -> Out A) : Out A :=
  match body with
  | (lines, inl e) => ((lines ++ fst (handler (exn_str e)))%list, snd (handler (exn_str e)))
  | (lines, inr a) => (lines, inr a)
  end.

(** [for x in l: body(x)]. *)
Fixpoint for_each {A} (l : list A) (body : A -> Out unit) : Out unit :=
  match l with
  | [] => out_ret tt
  | x :: rest => out_bind (body x) (fun _ => for_each rest body)
  end.

(** [[f(x) for x in l]]. *)
Fixpoint comprehension {A B} (f : A -> result B) (l : list A) : result (list B) :=
  match l with
  | [] => inr []
  | x :: rest =>
      match f x with
      | inl e => inl e
      | inr y =>
          match comprehension f rest with
          | inl e => inl e
          | inr ys => inr (y :: ys)
          end
      end
  end.

Definition newline : string := String (Ascii.ascii_of_nat 10) EmptyString.

Definition type_name (v : py) : string :=
  match v with
  | PyNone => "NoneType"
  | PyBool _ => "bool"
  | PyInt _ => "int"
  | PyFloat _ => "float"
  | PyStr _ => "str"
  | PyList _ => "list"
  | PyDict _ => "dict"
  end.

(** The keys of a parsed object, each at the place of its first
    occurrence. *)
Fixpoint dict_keys (members : list (string * py)) : list string :=
  match members with
  | [] => []
  | (k, _) :: rest => k :: List.filter (fun k' => negb (String.eqb k' k)) (dict_keys rest)
  end.

Fixpoint characters (s : string) : list py :=
  match s with
  | EmptyString => []
  | String c rest => PyStr (String c EmptyString) :: characters rest
  end.

(** [len(v)]; a string is taken as the sequence of its characters. *)
Definition len (v : py) : result nat :=
  match v with
  | PyList items => inr (length items)
  | PyDict members => inr (length (dict_keys members))
  | PyStr s => inr (String.length s)
  | _ => inl (Exception ("object of type '" ++ type_name v ++ "' has no len()"))
  end.

(** [v[i]] for an index [i] of [range(...)].  The keys of a parsed object
    are strings, so an integer is the key of none: [KeyError(i)]. *)
Definition getitem_int (v : py) (i : nat) : result py :=
  match v with
  | PyList items =>
      match items !! i with
      | Some x => inr x
      | None => inl (Exception "list index out of range")
      end
  | PyDict _ => inl (Exception (pretty i))
  | PyStr s =>
      match String.get i s with
      | Some c => inr (PyStr (String c EmptyString))
      | None => inl (Exception "string index out of range")
      end
  | _ => inl (Exception ("'" ++ type_name v ++ "' object is not subscriptable"))
  end.

(** [for x in v]: what the iteration goes through. *)
Definition py_iter (v : py) : result (list py) :=
  match v with
  | PyList items => inr items
  | PyDict members => inr (map PyStr (dict_keys members))
  | PyStr s => inr (characters s)
  | _ => inl (Exception ("'" ++ type_name v ++ "' object is not iterable"))
  end.

(** [v[:n]]. *)
Definition slice_head (n : nat) (v : py) : result py :=
  match v with
  | PyList items => inr (PyList (take n items))
  | PyStr s => inr (PyStr (String.substring 0 n s))
  | PyDict _ => inl (Exception "unhashable type: 'slice'")
  | _ => inl (Exception ("'" ++ type_name v ++ "' object is not subscriptable"))
  end.

Section Clients.

(** How Python writes values: [f"{x:.4f}"] of a float and of an integer,
    [str(v)], and the float [round(x, 4)] gives. *)
Variable format_float : Q -> string.
Variable format_int : Z -> result string.
Variable py_str : py -> string.
Variable round4 : Q -> Q.

Local Notation "x <- m ;; k" := (out_bind m (fun x => k))
  (at level 100, m at next level, right associativity).
Local Notation "m ;; k" := (out_bind m (fun _ => k))
  (at level 100, right associativity).

(** [f"{v:.4f}"]. *)
Definition format_4f (v : py) : result string :=
  match v with
  | PyFloat x => inr (format_float x)
  | PyInt n => format_int n
  | PyBool b => format_int (if b then 1 else 0)%Z
  | PyStr _ => inl (Exception "Unknown format code 'f' for object of type 'str'")
  | _ => inl (Exception ("unsupported format string passed to " ++ type_name v ++ ".__format__"))
  end.

(** [round(v, 4)]. *)
Definition py_round (v : py) : result py :=
  match v with
  | PyFloat x => inr (PyFloat (round4 x))
  | PyInt n => inr (PyInt n)
  | PyBool b => inr (PyInt (if b then 1 else 0)%Z)
  | _ => inl (Exception ("type " ++ type_name v ++ " doesn't define __round__ method"))
  end.

(** [print(f"{label}{grasp[key]:.4f}")]. *)
Definition say_4f (label : string) (grasp : py) (key : string) : Out unit :=
  v <- out_lift (getitem grasp key) ;;
  s <- out_lift (format_4f v) ;;
  say (label ++ s).

(** The body of the loop of [display_grasps], the same in both files,
    after [grasp = grasps[i]]. *)
Definition show_grasp (i : nat) (grasp : py) : Out unit :=
  say (newline ++ "Grasp #" ++ pretty (i + 1)%nat ++ ":") ;;
  say_4f "  Score: " grasp "score" ;;
  say_4f "  Width: " grasp "width" ;;
  say_4f "  Height: " grasp "height" ;;
  say_4f "  Depth: " grasp "depth" ;;
  t <- out_lift (getitem grasp "translation") ;;
  say ("  Translation: " ++ py_str t) ;;
  say "  Rotation Matrix:" ;;
  m <- out_lift (getitem grasp "rotation_matrix") ;;
  rows <- out_lift (py_iter m) ;;
  for_each rows (fun row => say ("    " ++ py_str row)).

(** [round(grasp['score'], 4)]. *)
Definition rounded_score (grasp : py) : result py :=
  match getitem grasp "score" with
  | inl e => inl e
  | inr v => py_round v
  end.

End Clients.

(** A step of the transport that raises with a message or goes through. *)
Definition out_check (o : option string) : Out unit :=
  match o with
  | Some msg => ([], inl (Exception msg))
  | None => out_ret tt
  end.

(** A step of the transport that raises with a message or yields a
    value. *)
Definition out_receive (r : string + py) : Out py :=
  match r with
  | inl msg => ([], inl (Exception msg))
  | inr v => out_ret v
  end.

(** *** client_example.py *)
Module ClientExample.

Section Client.

Variable format_float : Q -> string.
Variable format_int : Z -> result string.
Variable py_str : py -> string.
Variable round4 : Q -> Q.

(** What the transport does for the client: what [websockets.connect]
    raises, if it does; what sending the request raises, if it does; what
    is received and parsed once the request is sent, or what that raises;
    and the seconds between the two, as [:.2f] writes them. *)
Variable connecting : option string.
Variable sending : py -> option string.
Variable receiving : py -> string + py.
Variable elapsed : string.

Local Notation "x <- m ;; k" := (out_bind m (fun x => k))
  (at level 100, m at next level, right associativity).
Local Notation "m ;; k" := (out_bind m (fun _ => k))
  (at level 100, right associativity).

(** [display_grasps(grasps)]. *)
Definition display_grasps (grasps : py) : Out unit :=
  n <- out_lift (len grasps) ;;
  say (newline ++ "Received " ++ pretty n ++ " grasps:") ;;
  if (n =? 0)%nat then say "No grasps detected."
  else
    for_each (seq 0 (Nat.min 3 n))
      (fun i => grasp <- out_lift (getitem_int grasps i) ;;
                show_grasp format_float format_int py_str i grasp) ;;
    items <- out_lift (py_iter grasps) ;;
    scores <- out_lift (comprehension (rounded_score round4) items) ;;
    say (newline ++ "All scores: " ++ py_str (PyList scores)).

(** [send_grasp_request(server_url, points, colors)], the rows of the two
    arrays given as [tolist()] yields them. *)
Definition send_grasp_request (points colors : list py) : Out py :=
  out_check connecting ;;
  let data :=
    PyDict [("points", PyList points);
            ("colors", PyList colors);
            ("lims", PyList [PyFloat (-0.19)%Q; PyFloat 0.12%Q; PyFloat 0.02%Q;
                             PyFloat 0.15%Q; PyFloat 0.0%Q; PyFloat 1.0%Q])] in
  say ("Sending point cloud data (" ++ pretty (length points) ++ " points)...") ;;
  out_check (sending data) ;;
  result <- out_receive (receiving data) ;;
  say ("Response received in " ++ elapsed ++ " seconds") ;;
  out_ret result.

(** The last statement of [main]: the request is sent and the result
    displayed, and what either raises is printed. *)
Definition main_exchange (points colors : list py) : Out unit :=
  out_try
    (result <- send_grasp_request points colors ;;
     display_grasps result)
    (fun msg => say ("Error communicating with server: " ++ msg)).

End Client.

End ClientExample.

(** *** test.py *)
Module Test.

Section Client.

Variable format_float : Q -> string.
Variable format_int : Z -> result string.
Variable py_str : py -> string.
Variable round4 : Q -> Q.
Variable connecting : option string.
Variable sending : py -> option string.
Variable receiving : py -> string + py.
Variable elapsed : string.

Local Notation "x <- m ;; k" := (out_bind m (fun x => k))
  (at level 100, m at next level, right associativity).
Local Notation "m ;; k" := (out_bind m (fun _ => k))
  (at level 100, right associativity).

(** [display_grasps(grasps)]. *)
Definition display_grasps (grasps : py) : Out unit :=
  n <- out_lift (len grasps) ;;
  say (newline ++ "Received " ++ pretty n ++ " grasps:") ;;
  if (n =? 0)%nat then say "No grasps detected."
  else
    for_each (seq 0 (Nat.min 5 n))
      (fun i => grasp <- out_lift (getitem_int grasps i) ;;
                show_grasp format_float format_int py_str i grasp) ;;
    head <- out_lift (slice_head 10 grasps) ;;
    items <- out_lift (py_iter head) ;;
    scores <- out_lift (comprehension (rounded_score round4) items) ;;
    say (newline ++ "All scores: " ++ py_str (PyList scores)) ;;
    if (10 <? n)%nat then say "... (more scores omitted)" else out_ret tt.

(** The request [test_grasp_server] builds. *)
Definition request_data (points colors : list py) (workspace_limits : option py) : py :=
  let workspace_limits :=
    match workspace_limits with
    | None => PyList [PyFloat (-0.19)%Q; PyFloat 0.12%Q; PyFloat 0.02%Q;
                      PyFloat 0.15%Q; PyFloat 0.0%Q; PyFloat 1.0%Q]
    | Some lims => lims
    end in
  PyDict [("points", PyList points); ("colors", PyList colors); ("lims", workspace_limits)].

(** [test_grasp_server(server_url, points, colors, workspace_limits)]. *)
Definition test_grasp_server (server_url : string) (points colors : list py)
    (workspace_limits : option py) : Out py :=
  say ("Connecting to server at " ++ server_url ++ "...") ;;
  out_try
    (out_check connecting ;;
     let data := request_data points colors workspace_limits in
     say ("Sending point cloud with " ++ pretty (length points) ++ " points...") ;;
     out_check (sending data) ;;
     say "Data sent, waiting for response..." ;;
     grasps <- out_receive (receiving data) ;;
     say ("Response received in " ++ elapsed ++ " seconds") ;;
     display_grasps grasps ;;
     out_ret grasps)
    (fun msg =>
       say ("Error communicating with server: " ++ msg) ;;
       out_ret (PyList [])).

End Client.

End Test.

(** ** What the claims speak of *)

(** Adjacent candidates are in descending order of score. *)
Definition score_ge (a b : Grasp) : Prop := (score b <= score a)%Q.

Definition descending (gg : GraspGroup) : Prop :=
  ∀ i a b, gg !! i = Some a → gg !! S i = Some b → score_ge a b.

(** The candidates with score [s], in the order they have in [gg]. *)
Definition with_score (s : Q) (gg : GraspGroup) : GraspGroup :=
  List.filter (fun g => Qeq_bool (score g) s) gg.

(** Candidates of equal score come in [output] in the order of [input]. *)
Definition ties_kept (input output : GraspGroup) : Prop :=
  ∀ s, with_score s output = with_score s input.

(** The score an encoded candidate carries. *)
Definition score_of (d : py) : option Q :=
  match getitem d "score" with
  | inr (PyFloat x) => Some x
  | _ => None
  end.

(** [len(v)] of a received array. *)
Definition py_len (v : py) : nat :=
  match v with
  | PyList items => length items
  | _ => 0
  end.

(** Workspace limits with [min > max] on some axis. *)
Definition inverted_limits (lims : py) : bool :=
  match lims with
  | PyList [PyFloat xmin; PyFloat xmax; PyFloat ymin; PyFloat ymax; PyFloat zmin; PyFloat zmax] =>
      negb (Qle_bool xmin xmax) || negb (Qle_bool ymin ymax) || negb (Qle_bool zmin zmax)
  | _ => false
  end.

(** A group that the slice [gg[0:max_grasps]] leaves whole. *)
Definition within (max_grasps : py_stop) (gg : GraspGroup) : Prop :=
  match max_grasps with
  | StopNone => True
  | StopInt n => (Z.of_nat (length gg) <= n)%Z
  | StopStr _ => False
  end.

Definition is_get_grasp {F32} (ev : event F32) : bool :=
  match ev with
  | EvGetGrasp _ _ _ _ _ _ => true
  | _ => false
  end.

(** How often the engine was invoked in a trace. *)
Definition engine_calls {F32} (t : list (event F32)) : nat :=
  length (List.filter is_get_grasp t).

Definition is_getenv {F32} (key : string) (ev : event F32) : bool :=
  match ev with
  | EvGetenv k => String.eqb k key
  | _ => false
  end.

(** How often a variable of the environment was read in a trace. *)
Definition env_reads {F32} (key : string) (t : list (event F32)) : nat :=
  length (List.filter (is_getenv key) t).

(** The variables read in a trace, in order. *)
Definition keys_read {F32} (t : list (event F32)) : list string :=
  omap (fun ev => match ev with EvGetenv k => Some k | _ => None end) t.

(** A computation leaves a component [f] of the process state as it
    was. *)
Definition keeps {F32 A B} (f : world F32 → B) (m : M F32 A) : Prop :=
  ∀ w, f (m w).2 = f w.

(** A computation only appends to the trace, and what it appends
    satisfies [P]. *)
Definition emits {F32 A} (P : event F32 → Prop) (m : M F32 A) : Prop :=
  ∀ w, ∃ evs, trace (m w).2 = (trace w ++ evs)%list ∧ Forall P evs.

(** The next send on the transport goes through. *)
Definition send_works {F32} (w : world F32) : Prop :=
  match send_faults w with
  | Some _ :: _ => False
  | _ => True
  end.

(** What the session handler may do: of the environment it reads
    MAX_GRASPS alone, and it does not load the network. *)
Definition handler_event {F32} (ev : event F32) : Prop :=
  match ev with
  | EvGetenv key => key = "MAX_GRASPS"
  | EvLoadNet _ => False
  | _ => True
  end.

(** The variables [AnyGraspConfig()] reads, in the order of its
    assignments. *)
Definition config_keys : list string :=
  ["CHECKPOINT_PATH"; "MAX_GRIPPER_WIDTH"; "GRIPPER_HEIGHT"; "TOP_DOWN_GRASP"; "DEBUG"].

(** What was sent to a session in a trace, in order. *)
Definition responses {F32} (ws : WebSocket) (t : list (event F32)) : list py :=
  omap (fun ev => match ev with
                  | EvSendJson ws' d => if Nat.eqb ws' ws then Some d else None
                  | _ => None
                  end) t.

(** An engine call, if the event is one, asks for the object mask and the
    collision detection and not for dense grasps. *)
Definition fixed_options {F32} (ev : event F32) : Prop :=
  match ev with
  | EvGetGrasp _ _ _ apply_object_mask dense_grasp collision_detection =>
      apply_object_mask = true ∧ dense_grasp = false ∧ collision_detection = true
  | _ => True
  end.

(** The value [os.getenv(key, default)] has in a process state. *)
Definition environ_or {F32} (w : world F32) (key default : string) : string :=
  match environ w !! key with
  | Some s => s
  | None => default
  end.

(** The registered sessions other than [ws], in order. *)
Definition others (ws : WebSocket) (l : list WebSocket) : list WebSocket :=
  List.filter (fun x => negb (Nat.eqb x ws)) l.

(** The number of candidates the slice [gg[0:stop]] keeps of [n]. *)
Definition kept (stop : py_stop) (n : nat) : nat :=
  match stop with
  | StopNone => n
  | StopInt k => if (k <? 0)%Z then Z.to_nat (Z.of_nat n + k) else Nat.min n (Z.to_nat k)
  | StopStr _ => 0
  end.

(** The lines [display_grasps] is to print for candidate [i], read off the
    candidate itself. *)
Definition grasp_lines (format_float : Q → string) (py_str : py → string)
    (i : nat) (g : Grasp) : list string :=
  [newline ++ "Grasp #" ++ pretty (i + 1)%nat ++ ":";
   "  Score: " ++ format_float (score g);
   "  Width: " ++ format_float (width g);
   "  Height: " ++ format_float (match height g with Some h => h | None => 0.03%Q end);
   "  Depth: " ++ format_float (depth g);
   "  Translation: " ++ py_str (PyList (map PyFloat (translation g)));
   "  Rotation Matrix:"]
  ++ map (fun row => "    " ++ py_str (PyList (map PyFloat row))) (rotation_matrix g).

(** The lines for the first [shown] candidates of a group. *)
Definition shown_lines (format_float : Q → string) (py_str : py → string)
    (shown : nat) (gg : GraspGroup) : list string :=
  concat (imap (grasp_lines format_float py_str) (take shown gg)).

(** The line of the rounded scores of a group. *)
Definition scores_line (py_str : py → string) (round4 : Q → Q) (gg : GraspGroup) : string :=
  newline ++ "All scores: " ++ py_str (PyList (map (fun g => PyFloat (round4 (score g))) gg)).

(** What a client receives from the server for one request on a fresh
    session: the last value sent to the session, as it is (JSON carries the
    values there and back unchanged); when nothing was sent, receiving
    raises. *)
Definition server_reply {F32 Cloud} (as_float32 : py → result F32)
    (get_grasp : AnyGraspConfig → ndarray F32 → ndarray F32 → py →
                 bool → bool → bool → result (GraspGroup * Cloud))
    (nms : GraspGroup → GraspGroup) (ws : WebSocket) (w : world F32)
    (data : py) : string + py :=
  match last (responses ws
                (drop (length (trace w))
                   (trace (grasp_websocket as_float32 get_grasp nms ws
                             [Message data] w).2))) with
  | Some d => inr d
  | None => inl "no close frame received or sent"
  end.

(** The variables the [__main__] block reads, in order. *)
Definition main_keys : list string := ["PORT"; "HOST"].

(** ** Ranking: order and stability *)

Lemma insert_by_score_HdRel (h g : Grasp) (gg : GraspGroup) :
  score_ge h g → HdRel score_ge h gg → HdRel score_ge h (insert_by_score g gg).
Proof.
  intros Hg Hh. destruct gg as [|x rest]; simpl.
  - by constructor.
  - destruct (Qle_bool (score x) (score g)); constructor; try done.
    by inversion Hh.
Qed.

Lemma insert_by_score_Sorted (g : Grasp) (gg : GraspGroup) :
  Sorted score_ge gg → Sorted score_ge (insert_by_score g gg).
Proof.
  induction 1 as [|h rest Hrest IH Hh]; simpl.
  - repeat constructor.
  - destruct (Qle_bool (score h) (score g)) eqn:E.
    + constructor; [by constructor|].
      constructor. by apply Qle_bool_iff.
    + constructor; [done|].
      apply insert_by_score_HdRel; [|done].
      unfold score_ge. apply Qlt_le_weak, Qnot_le_lt.
      intros Hle. apply Qle_bool_iff in Hle. congruence.
Qed.

Lemma sort_by_score_Sorted (gg : GraspGroup) : Sorted score_ge (sort_by_score gg).
Proof.
  induction gg as [|g rest IH]; simpl; [constructor|].
  by apply insert_by_score_Sorted.
Qed.

Lemma Sorted_descending (gg : GraspGroup) : Sorted score_ge gg → descending gg.
Proof.
  induction 1 as [|h rest Hrest IH Hh]; intros i a b Ha Hb; [done|].
  destruct i as [|i]; simpl in *.
  - destruct rest as [|x rest']; simplify_eq/=. by inversion Hh.
  - by eapply IH.
Qed.

Lemma descending_tail (g : Grasp) (gg : GraspGroup) :
  descending (g :: gg) → descending gg.
Proof. intros H i a b Ha Hb. by apply (H (S i)). Qed.

Lemma descending_take (n : nat) (gg : GraspGroup) :
  descending gg → descending (take n gg).
Proof.
  intros H i a b Ha Hb.
  apply lookup_take_Some in Ha as [Ha _]. apply lookup_take_Some in Hb as [Hb _].
  by eapply H.
Qed.

Lemma sort_by_score_descending (gg : GraspGroup) : descending (sort_by_score gg).
Proof. apply Sorted_descending, sort_by_score_Sorted. Qed.

Lemma sort_by_score_fixed (gg : GraspGroup) : descending gg → sort_by_score gg = gg.
Proof.
  induction gg as [|g rest IH]; intros H; simpl; [done|].
  rewrite IH by (by eapply descending_tail).
  destruct rest as [|h rest']; simpl; [done|].
  assert (Hle : Qle_bool (score h) (score g) = true).
  { apply Qle_bool_iff. by apply (H 0%nat g h). }
  by rewrite Hle.
Qed.

Lemma with_score_insert (s : Q) (g : Grasp) (gg : GraspGroup) :
  with_score s (insert_by_score g gg) = with_score s (g :: gg).
Proof.
  unfold with_score. induction gg as [|h rest IH]; simpl; [done|].
  destruct (Qle_bool (score h) (score g)) eqn:E; simpl; [done|].
  rewrite IH. simpl.
  destruct (Qeq_bool (score g) s) eqn:Eg, (Qeq_bool (score h) s) eqn:Eh; try done.
  apply Qeq_bool_iff in Eg, Eh.
  assert (Hle : Qle_bool (score h) (score g) = true).
  { apply Qle_bool_iff. rewrite Eg, Eh. apply Qle_refl. }
  congruence.
Qed.

Lemma sort_by_score_ties_kept (gg : GraspGroup) : ties_kept gg (sort_by_score gg).
Proof.
  intros s. induction gg as [|g rest IH]; simpl; [done|].
  rewrite with_score_insert. unfold with_score in *. simpl. by rewrite IH.
Qed.

Lemma sort_by_score_length (gg : GraspGroup) : length (sort_by_score gg) = length gg.
Proof.
  assert (Hins : ∀ g l, length (insert_by_score g l) = S (length l)).
  { intros g l. induction l as [|h rest IH]; simpl; [done|].
    destruct (Qle_bool (score h) (score g)); simpl; by rewrite ?IH. }
  induction gg as [|g rest IH]; simpl; [done|]. by rewrite Hins, IH.
Qed.

Lemma score_of_grasp_dict (g : Grasp) : score_of (grasp_dict g) = Some (score g).
Proof. reflexivity. Qed.

(** ** The handler *)

Local Open Scope list_scope.

Section Properties.

Context {F32 Cloud : Type}.
Variable as_float32 : py → result F32.
Variable py_float : string → result Q.
Variable load_net : AnyGraspConfig → option exn.
Variable get_grasp :
  AnyGraspConfig → ndarray F32 → ndarray F32 → py → bool → bool → bool →
  result (GraspGroup * Cloud).
Variable nms : GraspGroup → GraspGroup.

Implicit Types (w : world F32) (ws : WebSocket) (data : py).

Local Notation "x <- m ;; k" := (bind m (fun x => k))
  (at level 100, m at next level, right associativity).
Local Notation "m ;; k" := (bind m (fun _ => k))
  (at level 100, right associativity).

(** *** Frame rules of the monad *)

Lemma keeps_bind {A B C} (f : world F32 → C) (m : M F32 A) (k : A → M F32 B) :
  keeps f m → (∀ a, keeps f (k a)) → keeps f (bind m k).
Proof.
  intros Hm Hk w. unfold bind. specialize (Hm w).
  destruct (m w) as [[e|a] w']; simpl in *; [done|].
  rewrite <- Hm. apply Hk.
Qed.

Lemma keeps_try {A C} (f : world F32 → C) (m : M F32 A) (h : exn → M F32 A) :
  keeps f m → (∀ e, keeps f (h e)) → keeps f (try_except m h).
Proof.
  intros Hm Hh w. unfold try_except. specialize (Hm w).
  destruct (m w) as [[e|a] w']; simpl in *; [|done].
  rewrite <- Hm. apply Hh.
Qed.

Lemma keeps_pure {A C} (f : world F32 → C) (r : result A) : keeps f (lift r).
Proof. by intros w. Qed.

Lemma emits_bind {A B} (P : event F32 → Prop) (m : M F32 A) (k : A → M F32 B) :
  emits P m → (∀ a, emits P (k a)) → emits P (bind m k).
Proof.
  intros Hm Hk w. unfold bind. destruct (Hm w) as (evs & Ht & HP).
  destruct (m w) as [[e|a] w']; simpl in *; [by exists evs|].
  destruct (Hk a w') as (evs' & Ht' & HP').
  exists (evs ++ evs'). rewrite Ht', Ht, app_assoc. split; [done|].
  by apply Forall_app.
Qed.

Lemma emits_try {A} (P : event F32 → Prop) (m : M F32 A) (h : exn → M F32 A) :
  emits P m → (∀ e, emits P (h e)) → emits P (try_except m h).
Proof.
  intros Hm Hh w. unfold try_except. destruct (Hm w) as (evs & Ht & HP).
  destruct (m w) as [[e|a] w']; simpl in *; [|by exists evs].
  destruct (Hh e w') as (evs' & Ht' & HP').
  exists (evs ++ evs'). rewrite Ht', Ht, app_assoc. split; [done|].
  by apply Forall_app.
Qed.

Lemma emits_silent {A} (P : event F32 → Prop) (m : M F32 A) :
  keeps trace m → emits P m.
Proof. intros Hm w. exists []. rewrite Hm, app_nil_r. by split. Qed.

Lemma emits_log (P : event F32 → Prop) (ev : event F32) : P ev → emits P (log ev).
Proof. intros HP w. exists [ev]. split; [done|]. by constructor. Qed.

Lemma emits_weaken {A} (P P' : event F32 → Prop) (m : M F32 A) :
  (∀ ev, P ev → P' ev) → emits P m → emits P' m.
Proof.
  intros HPP Hm w. destruct (Hm w) as (evs & Ht & HP).
  exists evs. split; [done|]. by eapply Forall_impl.
Qed.

(** *** The primitives *)

Ltac frame_step :=
  first
    [ apply keeps_bind; [|intros ?]
    | apply emits_bind; [|intros ?]
    | apply keeps_pure
    | apply emits_log
    | by intros ?
    | apply emits_silent; by intros ? ].

Lemma getenv_keeps {C} (f : world F32 → C) key :
  keeps f (log (EvGetenv key)) → keeps f (getenv key).
Proof. intros H. unfold getenv. apply keeps_bind; [done|]. by intros _ w. Qed.

Lemma getenv_emits (P : event F32 → Prop) key :
  P (EvGetenv key) → emits P (getenv key).
Proof. intros H. unfold getenv. repeat frame_step. done. Qed.

Lemma getenv_run key w :
  getenv key w =
  (inr (environ w !! key),
   {| environ := environ w; anygrasp := anygrasp w;
      active_connections := active_connections w;
      send_faults := send_faults w;
      trace := (trace w ++ [EvGetenv key])%list |}).
Proof. reflexivity. Qed.

Lemma send_json_emits (P : event F32 → Prop) ws d :
  P (EvSendJson ws d) → emits P (send_json d ws).
Proof.
  intros H. unfold send_json. apply emits_bind.
  - apply emits_silent. intros w. unfold next_send_fault. by destruct (send_faults w).
  - intros [e|]; [by apply emits_silent|by apply emits_log].
Qed.

Lemma send_json_keeps {C} (f : world F32 → C) ws d :
  keeps f next_send_fault → (∀ ev, keeps f (log ev)) → keeps f (send_json d ws).
Proof.
  intros H1 H2. unfold send_json. apply keeps_bind; [done|].
  intros [e|]; [by intros ?|apply H2].
Qed.

Lemma process_grasp_emits (P : event F32 → Prop) p c l :
  P (EvGetGrasp p c l true false true) → emits P (process_grasp get_grasp nms p c l).
Proof.
  intros H w. unfold process_grasp. destruct (anygrasp w) as [cfg|].
  - revert w. change (emits P (log (EvGetGrasp p c l true false true) ;;
        r <- lift (get_grasp cfg p c l true false true) ;;
        ret (nms_sort nms (fst r), snd r))).
    repeat frame_step. done.
  - exists []. by rewrite app_nil_r.
Qed.

Lemma process_grasp_keeps {C} (f : world F32 → C) p c l :
  (∀ ev, keeps f (log ev)) → keeps f (process_grasp get_grasp nms p c l).
Proof.
  intros H w. unfold process_grasp. destruct (anygrasp w) as [cfg|]; [|done].
  revert w. change (keeps f (log (EvGetGrasp p c l true false true) ;;
        r <- lift (get_grasp cfg p c l true false true) ;;
        ret (nms_sort nms (fst r), snd r))).
  apply keeps_bind; [apply H|]. intros _. repeat frame_step.
Qed.

Lemma handle_message_emits ws data :
  emits handler_event (handle_message as_float32 get_grasp nms ws data).
Proof.
  unfold handle_message.
  apply emits_bind; [by apply emits_silent|]. intros input.
  apply emits_bind; [by apply process_grasp_emits|]. intros r.
  apply emits_bind; [by apply getenv_emits|]. intros mg.
  apply emits_bind; [by apply emits_silent|]. intros res.
  by apply send_json_emits.
Qed.

Lemma log_keeps_environ (ev : event F32) : keeps environ (log ev).
Proof. by intros w. Qed.
Lemma log_keeps_anygrasp (ev : event F32) : keeps anygrasp (log ev).
Proof. by intros w. Qed.
Lemma log_keeps_connections (ev : event F32) : keeps active_connections (log ev).
Proof. by intros w. Qed.

Lemma next_send_fault_keeps {C} (f : world F32 → C) :
  (∀ e a c s s' t, f (Build_world e a c s t) = f (Build_world e a c s' t)) →
  keeps f (@next_send_fault F32).
Proof.
  intros H w. unfold next_send_fault. destruct w as [e a c s t]; simpl.
  destruct s; simpl; [done|]. apply H.
Qed.

Lemma handle_message_keeps {C} (f : world F32 → C) ws data :
  (∀ ev, keeps f (log ev)) →
  (∀ e a c s s' t, f (Build_world e a c s t) = f (Build_world e a c s' t)) →
  keeps f (handle_message as_float32 get_grasp nms ws data).
Proof.
  intros Hlog Hf. unfold handle_message.
  apply keeps_bind; [apply keeps_pure|]. intros input.
  apply keeps_bind; [by apply process_grasp_keeps|]. intros r.
  apply keeps_bind; [by apply getenv_keeps|]. intros mg.
  apply keeps_bind; [apply keeps_pure|]. intros res.
  apply send_json_keeps; [by apply next_send_fault_keeps|done].
Qed.

Lemma serve_keeps {C} (f : world F32 → C) ws inbox :
  (∀ ev, keeps f (log ev)) →
  (∀ e a c s s' t, f (Build_world e a c s t) = f (Build_world e a c s' t)) →
  keeps f (serve as_float32 get_grasp nms ws inbox).
Proof.
  intros Hlog Hf. induction inbox as [|[d|e] rest IH]; simpl; [by intros ?| |by intros ?].
  apply keeps_bind; [by apply handle_message_keeps|]. by intros _.
Qed.

Lemma serve_emits ws inbox :
  emits handler_event (serve as_float32 get_grasp nms ws inbox).
Proof.
  induction inbox as [|[d|e] rest IH]; simpl; [by apply emits_silent| |by apply emits_silent].
  apply emits_bind; [apply handle_message_emits|]. by intros _.
Qed.

(** *** One message *)

Ltac run :=
  unfold handle_message, process_grasp, send_json, next_send_fault, getenv,
    print, log, bind, lift, ret, raise; simpl.

Lemma handle_message_rejects ws data e w :
  extract_input as_float32 data = inl e →
  handle_message as_float32 get_grasp nms ws data w = (inl e, w).
Proof. intros H. run. by rewrite H. Qed.

(** Once the input is extracted the engine is invoked, once, with the
    arrays and limits extracted and the three fixed options; what it raises
    is what the message raises. *)
Lemma handle_message_calls_engine ws data p c l cfg w :
  extract_input as_float32 data = inr (p, c, l) →
  anygrasp w = Some cfg →
  (∃ rest,
     trace (handle_message as_float32 get_grasp nms ws data w).2 =
       trace w ++ EvGetGrasp p c l true false true :: rest
     ∧ engine_calls rest = 0%nat)
  ∧ (∀ e, get_grasp cfg p c l true false true = inl e →
          (handle_message as_float32 get_grasp nms ws data w).1 = inl e).
Proof.
  intros Hin Hcfg. run. rewrite Hin; simpl. rewrite Hcfg; simpl.
  destruct (get_grasp cfg p c l true false true) as [e|[gg cloud]]; simpl.
  { split; [by exists []|]. by intros ? [= ->]. }
  split; [|done].
  destruct (prepare_grasp_data _ _) as [e|resp]; simpl.
  { exists [EvGetenv "MAX_GRASPS"]. by rewrite <- app_assoc. }
  destruct (send_faults w) as [|[e|] faults]; simpl.
  - exists [EvGetenv "MAX_GRASPS"; EvSendJson ws (PyList resp)].
    by rewrite <- !app_assoc.
  - exists [EvGetenv "MAX_GRASPS"]. by rewrite <- app_assoc.
  - exists [EvGetenv "MAX_GRASPS"; EvSendJson ws (PyList resp)].
    by rewrite <- !app_assoc.
Qed.

Lemma extract_input_lims members p c l :
  extract_input as_float32 (PyDict members) = inr (p, c, l) →
  l = match dict_lookup "lims" members with Some v => v | None => default_lims end.
Proof.
  unfold extract_input. intros H.
  destruct (getitem _ "points") as [|rp]; [done|].
  destruct (np_array _ rp); [done|].
  destruct (getitem _ "colors") as [|rc]; [done|].
  destruct (np_array _ rc); [done|].
  simpl in H. destruct (dict_lookup "lims" members); by simplify_eq.
Qed.

(** A message that is answered: the engine returned a group, and what is
    sent is the encoding of that group after the ranking step, all of
    it. *)
Lemma handle_message_answered ws data w w' :
  handle_message as_float32 get_grasp nms ws data w = (inr tt, w') →
  ∃ p c l cfg gg cloud,
    extract_input as_float32 data = inr (p, c, l)
    ∧ anygrasp w = Some cfg
    ∧ get_grasp cfg p c l true false true = inr (gg, cloud)
    ∧ gg_pick (nms_sort nms gg) (stop_of_env (environ w !! "MAX_GRASPS")) =
        inr (nms_sort nms gg)
    ∧ trace w' =
        trace w ++ [EvGetGrasp p c l true false true; EvGetenv "MAX_GRASPS";
                    EvSendJson ws (PyList (map grasp_dict (nms_sort nms gg)))].
Proof.
  run. destruct (extract_input _ data) as [e|[[p c] l]]; simpl; [done|].
  destruct (anygrasp w) as [cfg|] eqn:Hcfg; simpl; [|done].
  destruct (get_grasp cfg p c l true false true) as [e|[gg cloud]] eqn:Hgg; simpl; [done|].
  unfold prepare_grasp_data.
  destruct (gg_pick _ _) as [e|picked] eqn:Hpick; simpl; [done|].
  assert (picked = nms_sort nms gg) as ->.
  { unfold gg_pick in Hpick.
    destruct (length (nms_sort nms gg) =? 0)%nat eqn:Hlen.
    - apply Nat.eqb_eq, nil_length_inv in Hlen. by rewrite Hlen in *; simplify_eq.
    - destruct (environ w !! "MAX_GRASPS"); simpl in Hpick; by simplify_eq. }
  intros H. exists p, c, l, cfg, gg, cloud. repeat split; try done.
  destruct (send_faults w) as [|[e|] faults]; simplify_eq/=; by rewrite <- !app_assoc.
Qed.

Lemma nms_sort_sorts (gg : GraspGroup) :
  nms_sort nms gg = sort_by_score (if (0 <? length gg)%nat then nms gg else gg).
Proof. unfold nms_sort. by destruct gg. Qed.

(** *** The session *)

Lemma serve_app ws pre rest w w1 :
  serve as_float32 get_grasp nms ws pre w = (inr AwaitingMessage, w1) →
  serve as_float32 get_grasp nms ws (pre ++ rest) w =
  serve as_float32 get_grasp nms ws rest w1.
Proof.
  revert w. induction pre as [|[d|e] pre IH]; intros w; simpl.
  - by intros [= ->].
  - unfold bind.
    destruct (handle_message _ _ _ ws d w) as [[e|[]] w2]; [done|]. apply IH.
  - done.
Qed.

Lemma list_remove_snoc ws (l : list WebSocket) :
  ws ∉ l → list_remove ws (l ++ [ws]) = l.
Proof.
  induction l as [|x l IH]; intros Hnot; simpl.
  - by rewrite Nat.eqb_refl.
  - apply not_elem_of_cons in Hnot as [Hne Hnot].
    destruct (Nat.eqb_spec x ws) as [->|_]; [done|]. by rewrite IH.
Qed.

Lemma registered_snoc ws (l : list WebSocket) :
  existsb (Nat.eqb ws) (l ++ [ws]) = true.
Proof. rewrite existsb_app. simpl. by rewrite Nat.eqb_refl, orb_true_r. Qed.

(** *** The claims *)

(** C1, as the handler behaves: when handling a message on an open session
    raises anything but a disconnect, at any stage, and the transport then
    takes one more send, the handler sends the error message
    [{"error": str(e)}] on that session, removes the session from the
    connection manager and returns, without raising and without reading
    what else arrives. *)
Theorem stage_error_reported_then_session_closed ws pre data rest msg w w1 w2 :
  (connect ws ;; serve as_float32 get_grasp nms ws pre) w = (inr AwaitingMessage, w1) →
  handle_message as_float32 get_grasp nms ws data w1 = (inl (Exception msg), w2) →
  send_works w2 →
  ∃ w3,
    grasp_websocket as_float32 get_grasp nms ws (pre ++ Message data :: rest) w =
      (inr Returned, w3)
    ∧ trace w3 =
        trace w2 ++ [EvPrint ("Error processing grasp: " ++ msg)%string;
                     EvSendJson ws (error_message msg)]
    ∧ active_connections w3 = list_remove ws (active_connections w ++ [ws])
    ∧ (ws ∉ active_connections w → ws ∉ active_connections w3).
Proof.
  intros Hpre Hmsg Hsend.
  unfold grasp_websocket. unfold bind at 1. unfold bind at 1 in Hpre.
  destruct (connect ws w) as [[e|[]] wc] eqn:Hc; [done|].
  assert (Hconn : active_connections wc = active_connections w ++ [ws]).
  { unfold connect, bind, log in Hc. by simplify_eq/=. }
  assert (Hconn1 : active_connections w1 = active_connections wc).
  { pose proof (serve_keeps active_connections ws pre
                  log_keeps_connections (λ _ _ _ _ _ _, eq_refl) wc) as H.
    by rewrite Hpre in H. }
  assert (Hconn2 : active_connections w2 = active_connections w1).
  { pose proof (handle_message_keeps active_connections ws data
                  log_keeps_connections (λ _ _ _ _ _ _, eq_refl) w1) as H.
    by rewrite Hmsg in H. }
  unfold try_except. rewrite (serve_app _ _ _ _ _ Hpre). simpl.
  unfold bind at 1. rewrite Hmsg.
  unfold send_works in Hsend.
  unfold bind, print, log, send_json, next_send_fault, disconnect, ret; simpl.
  destruct (send_faults w2) as [|[e|] faults]; [|done|]; simpl;
    rewrite Hconn2, Hconn1, Hconn, registered_snoc;
    (eexists; split; [done|]; simpl; rewrite <- app_assoc;
     repeat split; try done; intros Hnot; by rewrite list_remove_snoc).
Qed.

(** C2, as the handler behaves: it does not compare the lengths of points
    and colors.  When each of the two converts to an array, whatever their
    lengths, extraction succeeds and the engine is invoked once with both
    arrays; the message fails there only with what the engine raises. *)
Theorem arrays_reach_engine_whatever_lengths ws data p c l cfg w :
  extract_input as_float32 data = inr (p, c, l) →
  anygrasp w = Some cfg →
  engine_calls (trace (handle_message as_float32 get_grasp nms ws data w).2) =
    S (engine_calls (trace w))
  ∧ EvGetGrasp p c l true false true ∈
      trace (handle_message as_float32 get_grasp nms ws data w).2
  ∧ (∀ e, get_grasp cfg p c l true false true = inl e →
          (handle_message as_float32 get_grasp nms ws data w).1 = inl e).
Proof.
  intros Hin Hcfg.
  destruct (handle_message_calls_engine ws data p c l cfg w Hin Hcfg)
    as [(rest & Ht & Hrest) Hraise].
  rewrite Ht. split_and!; [|apply elem_of_app; right; constructor|done].
  unfold engine_calls in *. rewrite List.filter_app, length_app. simpl.
  rewrite Hrest. lia.
Qed.

(** C3, as the handler behaves: the workspace limits are not examined.
    The value under "lims", whatever its bounds, is the [lims] argument of
    the one engine call of the message. *)
Theorem limits_reach_engine_unchecked ws members lims p c l cfg w :
  dict_lookup "lims" members = Some lims →
  extract_input as_float32 (PyDict members) = inr (p, c, l) →
  anygrasp w = Some cfg →
  l = lims
  ∧ ∃ rest,
      trace (handle_message as_float32 get_grasp nms ws (PyDict members) w).2 =
        trace w ++ EvGetGrasp p c lims true false true :: rest
      ∧ engine_calls rest = 0%nat.
Proof.
  intros Hl Hin Hcfg.
  pose proof (extract_input_lims members p c l Hin) as Heq. rewrite Hl in Heq.
  subst l. split; [done|].
  by destruct (handle_message_calls_engine ws _ p c lims cfg w Hin Hcfg).
Qed.

(** C8: when "lims" is missing from the request, the engine call of the
    message receives [-0.19, 0.12, 0.02, 0.15, 0.0, 1.0] as [lims]. *)
Theorem omitted_lims_default_to_engine ws members p c l cfg w :
  dict_lookup "lims" members = None →
  extract_input as_float32 (PyDict members) = inr (p, c, l) →
  anygrasp w = Some cfg →
  l = PyList [PyFloat (-0.19)%Q; PyFloat 0.12%Q; PyFloat 0.02%Q;
              PyFloat 0.15%Q; PyFloat 0.0%Q; PyFloat 1.0%Q]
  ∧ ∃ rest,
      trace (handle_message as_float32 get_grasp nms ws (PyDict members) w).2 =
        trace w ++
        EvGetGrasp p c
          (PyList [PyFloat (-0.19)%Q; PyFloat 0.12%Q; PyFloat 0.02%Q;
                   PyFloat 0.15%Q; PyFloat 0.0%Q; PyFloat 1.0%Q])
          true false true :: rest
      ∧ engine_calls rest = 0%nat.
Proof.
  intros Hl Hin Hcfg.
  pose proof (extract_input_lims members p c l Hin) as Heq. rewrite Hl in Heq.
  subst l. split; [done|].
  by destruct (handle_message_calls_engine ws _ p c default_lims cfg w Hin Hcfg).
Qed.

(** C9, as the handler behaves: whenever the engine returns an empty
    group, for a cloud without points as for any other, the response sent
    is the empty list and nothing is raised, whatever MAX_GRASPS is. *)
Theorem empty_group_empty_response ws data p c l cfg cloud w :
  extract_input as_float32 data = inr (p, c, l) →
  anygrasp w = Some cfg →
  get_grasp cfg p c l true false true = inr ([], cloud) →
  send_works w →
  ∃ w',
    handle_message as_float32 get_grasp nms ws data w = (inr tt, w')
    ∧ trace w' =
        trace w ++ [EvGetGrasp p c l true false true; EvGetenv "MAX_GRASPS";
                    EvSendJson ws (PyList [])].
Proof.
  intros Hin Hcfg Hgg Hsend. run. rewrite Hin; simpl. rewrite Hcfg; simpl.
  rewrite Hgg; simpl. unfold send_works in Hsend.
  destruct (send_faults w) as [|[e|] faults]; [|done|]; simpl;
    (eexists; split; [done|]; simpl; by rewrite <- !app_assoc).
Qed.

Lemma with_score_sublist (s : Q) (l1 l2 : GraspGroup) :
  l1 `sublist_of` l2 → with_score s l1 `sublist_of` with_score s l2.
Proof.
  unfold with_score. induction 1 as [|x l1 l2 H IH|x l1 l2 H IH]; simpl.
  - constructor.
  - destruct (Qeq_bool (score x) s); [by constructor|done].
  - destruct (Qeq_bool (score x) s); [by constructor|done].
Qed.

(** C6: the list sent in answer to a message is in descending order of
    score, pair by adjacent pair; candidates of equal score come in the
    order in which the suppression step delivered them and, suppression
    only eliminating candidates, in the order the engine gave them. *)
Theorem response_descending_by_score ws data w w' :
  (∀ gg, nms gg `sublist_of` gg) →
  handle_message as_float32 get_grasp nms ws data w = (inr tt, w') →
  ∃ cfg p c l gg cloud resp,
    anygrasp w = Some cfg
    ∧ extract_input as_float32 data = inr (p, c, l)
    ∧ get_grasp cfg p c l true false true = inr (gg, cloud)
    ∧ last (trace w') = Some (EvSendJson ws (PyList resp))
    ∧ (∀ i da db, resp !! i = Some da → resp !! S i = Some db →
         ∃ a b, score_of da = Some a ∧ score_of db = Some b ∧ (b <= a)%Q)
    ∧ ∃ items,
        resp = map grasp_dict items
        ∧ descending items
        ∧ ties_kept (if (0 <? length gg)%nat then nms gg else gg) items
        ∧ (∀ s, with_score s items `sublist_of` with_score s gg).
Proof.
  intros Hnms H. apply handle_message_answered in H
    as (p & c & l & cfg & gg & cloud & Hin & Hcfg & Hgg & _ & Ht).
  exists cfg, p, c, l, gg, cloud, (map grasp_dict (nms_sort nms gg)).
  assert (Hdesc : descending (nms_sort nms gg)).
  { rewrite nms_sort_sorts. apply sort_by_score_descending. }
  assert (Hties : ties_kept (if (0 <? length gg)%nat then nms gg else gg)
                    (nms_sort nms gg)).
  { rewrite nms_sort_sorts. apply sort_by_score_ties_kept. }
  split_and!; try done.
  - rewrite Ht. by rewrite last_app.
  - intros i da db Ha Hb.
    apply list_lookup_fmap_Some in Ha as (a & -> & Ea).
    apply list_lookup_fmap_Some in Hb as (b & -> & Eb).
    exists (score a), (score b). split_and!; try done.
    by apply (Hdesc i).
  - exists (nms_sort nms gg). split_and!; try done.
    intros s. rewrite (Hties s). apply with_score_sublist.
    destruct (0 <? length gg)%nat; [apply Hnms|done].
Qed.

Lemma disconnect_keeps {C} (f : world F32 → C) ws :
  (∀ e a c c' s t, f (Build_world e a c s t) = f (Build_world e a c' s t)) →
  keeps f (@disconnect F32 ws).
Proof.
  intros H w. unfold disconnect. destruct (existsb _ _); [|done].
  destruct w; simpl. apply H.
Qed.

Lemma connect_keeps {C} (f : world F32 → C) ws :
  (∀ ev, keeps f (log ev)) →
  (∀ e a c c' s t, f (Build_world e a c s t) = f (Build_world e a c' s t)) →
  keeps f (@connect F32 ws).
Proof.
  intros Hlog H. unfold connect. apply keeps_bind; [apply Hlog|].
  intros _ w. destruct w; simpl. apply H.
Qed.

Lemma grasp_websocket_keeps {C} (f : world F32 → C) ws inbox :
  (∀ ev, keeps f (log ev)) →
  (∀ e a c s s' t, f (Build_world e a c s t) = f (Build_world e a c s' t)) →
  (∀ e a c c' s t, f (Build_world e a c s t) = f (Build_world e a c' s t)) →
  keeps f (grasp_websocket as_float32 get_grasp nms ws inbox).
Proof.
  intros Hlog Hs Hc. unfold grasp_websocket.
  apply keeps_bind; [by apply connect_keeps|]. intros _.
  apply keeps_try; [by apply serve_keeps|]. intros [|msg].
  - apply keeps_bind; [by apply disconnect_keeps|]. intros _.
    apply keeps_bind; [apply Hlog|]. by intros _ w.
  - apply keeps_bind; [apply Hlog|]. intros _.
    apply keeps_bind; [apply send_json_keeps; [by apply next_send_fault_keeps|done]|].
    intros _. apply keeps_bind; [by apply disconnect_keeps|]. by intros _ w.
Qed.

Lemma grasp_websocket_emits ws inbox :
  emits handler_event (grasp_websocket as_float32 get_grasp nms ws inbox).
Proof.
  unfold grasp_websocket.
  apply emits_bind.
  { unfold connect. apply emits_bind; [by apply emits_log|].
    intros _. by apply emits_silent. }
  intros _. apply emits_try; [apply serve_emits|]. intros [|msg].
  - apply emits_bind.
    { apply emits_silent, disconnect_keeps. done. }
    intros _. apply emits_bind; [by apply emits_log|]. intros _. by apply emits_silent.
  - apply emits_bind; [by apply emits_log|]. intros _.
    apply emits_bind; [by apply send_json_emits|]. intros _.
    apply emits_bind; [apply emits_silent, disconnect_keeps; done|].
    intros _. by apply emits_silent.
Qed.

Lemma handle_message_reads_max_grasps ws data w :
  match (handle_message as_float32 get_grasp nms ws data w).1 with
  | inr _ =>
      env_reads "MAX_GRASPS" (trace (handle_message as_float32 get_grasp nms ws data w).2) =
      S (env_reads "MAX_GRASPS" (trace w))
  | inl _ => True
  end.
Proof.
  destruct (handle_message _ _ _ ws data w) as [[e|[]] w'] eqn:H; simpl; [done|].
  apply handle_message_answered in H as (p & c & l & cfg & gg & cloud & _ & _ & _ & _ & ->).
  unfold env_reads. rewrite List.filter_app, length_app. simpl. lia.
Qed.

Lemma startup_event_reads w :
  ∃ evs,
    trace (startup_event py_float load_net w).2 = trace w ++ evs
    ∧ match (startup_event py_float load_net w).1 with
      | inr _ => keys_read evs = config_keys
      | inl _ => keys_read evs `prefix_of` config_keys
      end.
Proof.
  unfold startup_event, new_AnyGraspConfig, getenv_or, getenv, set_anygrasp,
    print, log, bind, lift, ret, raise; simpl.
  destruct (py_float _) as [e|x]; simpl.
  { eexists. rewrite <- !app_assoc. split; [done|]. simpl. by eexists. }
  destruct (py_float _) as [e|y]; simpl.
  { eexists. rewrite <- !app_assoc. split; [done|]. simpl. by eexists. }
  destruct (load_net _) as [e|]; simpl.
  - eexists. rewrite <- !app_assoc. split; [done|]. simpl. by exists [].
  - eexists. rewrite <- !app_assoc. split; [done|]. done.
Qed.

Lemma startup_event_keeps_environ :
  keeps (@environ F32) (startup_event py_float load_net).
Proof.
  intros w.
  unfold startup_event, new_AnyGraspConfig, getenv_or, getenv, set_anygrasp,
    print, log, bind, lift, ret, raise; simpl.
  destruct (py_float _) as [e|x]; simpl; [done|].
  destruct (py_float _) as [e|y]; simpl; [done|].
  by destruct (load_net _).
Qed.

Lemma main_block_reads (py_int_of : string → result Z) w :
  ∃ evs,
    trace (main_block py_int_of w).2 = trace w ++ evs
    ∧ match (main_block py_int_of w).1 with
      | inr _ => keys_read evs = main_keys
      | inl _ => keys_read evs `prefix_of` main_keys
      end.
Proof.
  unfold main_block, getenv_or, getenv, print, log, bind, lift, ret; simpl.
  destruct (py_int_of _) as [e|port]; simpl.
  - eexists. split; [done|]. simpl. by eexists.
  - eexists. rewrite <- !app_assoc. split; [done|]. done.
Qed.

Lemma main_block_keeps_environ (py_int_of : string → result Z) :
  keeps (@environ F32) (main_block py_int_of).
Proof.
  intros w. unfold main_block, getenv_or, getenv, print, log, bind, lift, ret; simpl.
  by destruct (py_int_of _).
Qed.


(** C7: on a group that suppression leaves as it is, that is in descending
    order of score and that the slice leaves whole, post-processing returns
    the group itself, so that processing the result again changes
    nothing. *)
Theorem post_process_idempotent (m : py_stop) (x : GraspGroup) :
  nms x = x →
  descending x →
  within m x →
  post_process nms m x = inr x
  ∧ match post_process nms m x with
    | inr y => post_process nms m y
    | inl e => inl e
    end = post_process nms m x.
Proof.
  intros Hnms Hdesc Hfit.
  assert (Hfix : post_process nms m x = inr x).
  { unfold post_process. rewrite nms_sort_sorts.
    assert ((if (0 <? length x)%nat then nms x else x) = x) as ->
      by (by destruct (0 <? length x)%nat).
    rewrite sort_by_score_fixed by done.
    unfold gg_pick. destruct x as [|g rest]; [done|].
    simpl length in *. simpl Nat.eqb. cbv iota.
    destruct m as [|n|s]; simpl in *; [done| |done].
    destruct (Z.ltb_spec n 0); [lia|].
    f_equal. rewrite firstn_all2; [done|]. simpl. lia. }
  split; [done|]. by rewrite Hfix.
Qed.

(** C10: each entry of the encoded list is built from the candidate at the
    same place among those picked; a candidate without a height is given
    0.03, one without an object id is given -1, and every other field is
    the candidate's own. *)
Theorem encoded_fields_and_defaults (gg : GraspGroup) (m : py_stop) (resp : list py) :
  prepare_grasp_data gg m = inr resp →
  ∃ picked,
    gg_pick gg m = inr picked
    ∧ length resp = length picked
    ∧ ∀ i g, picked !! i = Some g →
        ∃ d, resp !! i = Some d
          ∧ (height g = None → getitem d "height" = inr (PyFloat 0.03%Q))
          ∧ (object_id g = None → getitem d "object_id" = inr (PyInt (-1)))
          ∧ (∀ h, height g = Some h → getitem d "height" = inr (PyFloat h))
          ∧ (∀ o, object_id g = Some o → getitem d "object_id" = inr (PyInt (py_int o)))
          ∧ getitem d "score" = inr (PyFloat (score g))
          ∧ getitem d "width" = inr (PyFloat (width g))
          ∧ getitem d "depth" = inr (PyFloat (depth g))
          ∧ getitem d "translation" = inr (PyList (map PyFloat (translation g)))
          ∧ getitem d "rotation_matrix" =
              inr (PyList (map (λ row, PyList (map PyFloat row)) (rotation_matrix g))).
Proof.
  unfold prepare_grasp_data. destruct (gg_pick gg m) as [e|picked]; [done|].
  intros [= <-]. exists picked. split_and!; [done|by rewrite length_map|].
  intros i g Hg. exists (grasp_dict g). split_and!.
  - apply list_lookup_fmap_Some. by exists g.
  - intros H. unfold grasp_dict. by rewrite H.
  - intros H. unfold grasp_dict. by rewrite H.
  - intros h H. unfold grasp_dict. by rewrite H.
  - intros o H. unfold grasp_dict. by rewrite H.
  - done.
  - done.
  - done.
  - done.
  - done.
Qed.

End Properties.

(** ** The handler on the test double *)

Lemma prepare_grasp_data_length (gg : GraspGroup) (n : Z) (resp : list py) :
  (0 <= n)%Z →
  prepare_grasp_data gg (StopInt n) = inr resp →
  length resp = Nat.min (length gg) (Z.to_nat n).
Proof.
  intros Hn. unfold prepare_grasp_data, gg_pick.
  destruct (Nat.eqb_spec (length gg) 0) as [H0|H0].
  - intros [= <-]. by rewrite H0.
  - unfold slice_to. destruct (Z.ltb_spec n 0); [lia|]. intros [= <-].
    rewrite length_map, length_take. lia.
Qed.

(** C1, at a message without "points" followed by a request: the error
    message is sent, and then the handler has returned and the session is
    no longer registered; the request that follows is never handled. *)
Lemma session_closed_after_error :
  grasp_websocket Double.as_float32 Double.engine Double.nms 7
    [Message (PyDict []); Message Double.request] (Double.started ∅) =
  (inr Returned,
   {| environ := ∅; anygrasp := Some Double.config; active_connections := [];
      send_faults := [];
      trace := [EvAccept 7;
                EvPrint "Error processing grasp: 'points'";
                EvSendJson 7 (PyDict [("error", PyStr "'points'")])] |}).
Proof. vm_compute. reflexivity. Qed.

Lemma stage_error_witness :
  ∃ w3,
    grasp_websocket Double.as_float32 Double.engine Double.nms 7
      ([Message Double.request] ++ Message (PyDict []) :: [Message Double.request])
      (Double.started ∅) = (inr Returned, w3)
    ∧ trace w3 =
        trace Double.failed ++ [EvPrint ("Error processing grasp: " ++ "'points'")%string;
                                EvSendJson 7 (error_message "'points'")]
    ∧ active_connections w3 =
        list_remove 7 (active_connections (Double.started ∅) ++ [7])
    ∧ (7 ∉ active_connections (Double.started ∅) → 7 ∉ active_connections w3).
Proof.
  apply (stage_error_reported_then_session_closed
           Double.as_float32 Double.engine Double.nms 7
           [Message Double.request] (PyDict []) [Message Double.request]
           "'points'" (Double.started ∅) Double.opened Double.failed).
  - vm_compute. reflexivity.
  - vm_compute. reflexivity.
  - vm_compute. exact I.
Defined.

(** C2, at one point and no color: the lengths differ, the engine is
    invoked and the message is answered. *)
Lemma uneven_arrays_reach_engine :
  py_len (PyList [Double.point 0 0 0.5]%Q) ≠ py_len (PyList [])
  ∧ (handle_message Double.as_float32 Double.engine Double.nms 7
       Double.uneven_request (Double.started ∅)).1 = inr tt
  ∧ engine_calls
      (trace (handle_message Double.as_float32 Double.engine Double.nms 7
                Double.uneven_request (Double.started ∅)).2) = 1%nat.
Proof. split_and!; [by vm_compute|by vm_compute|by vm_compute]. Qed.

Lemma arrays_reach_engine_witness :
  engine_calls
    (trace (handle_message Double.as_float32 Double.engine Double.nms 7
              Double.uneven_request (Double.started ∅)).2) =
    S (engine_calls (trace (Double.started ∅)))
  ∧ EvGetGrasp (NdArray [NdArray [NdScalar 0; NdScalar 0; NdScalar 0.5]]%Q)
      (NdArray []) default_lims true false true ∈
      trace (handle_message Double.as_float32 Double.engine Double.nms 7
               Double.uneven_request (Double.started ∅)).2
  ∧ (∀ e,
       Double.engine Double.config
         (NdArray [NdArray [NdScalar 0; NdScalar 0; NdScalar 0.5]]%Q)
         (NdArray []) default_lims true false true = inl e →
       (handle_message Double.as_float32 Double.engine Double.nms 7
          Double.uneven_request (Double.started ∅)).1 = inl e).
Proof.
  apply (arrays_reach_engine_whatever_lengths
           Double.as_float32 Double.engine Double.nms 7 Double.uneven_request).
  - vm_compute. reflexivity.
  - reflexivity.
Defined.

(** C3, at limits with xmin above xmax: the engine is invoked with them
    and the message is answered. *)
Lemma inverted_limits_reach_engine :
  inverted_limits Double.inverted = true
  ∧ (handle_message Double.as_float32 Double.engine Double.nms 7
       Double.inverted_request (Double.started ∅)).1 = inr tt
  ∧ head (trace (handle_message Double.as_float32 Double.engine Double.nms 7
                   Double.inverted_request (Double.started ∅)).2) =
      Some (EvGetGrasp Double.four_points_array Double.four_points_array
              Double.inverted true false true).
Proof. split_and!; [by vm_compute|by vm_compute|by vm_compute]. Qed.

Lemma limits_reach_engine_witness :
  Double.inverted = Double.inverted
  ∧ ∃ rest,
      trace (handle_message Double.as_float32 Double.engine Double.nms 7
               Double.inverted_request (Double.started ∅)).2 =
        trace (Double.started ∅) ++
        EvGetGrasp Double.four_points_array Double.four_points_array
          Double.inverted true false true :: rest
      ∧ engine_calls rest = 0%nat.
Proof.
  apply (limits_reach_engine_unchecked
           Double.as_float32 Double.engine Double.nms 7 _ Double.inverted
           Double.four_points_array Double.four_points_array Double.inverted
           Double.config (Double.started ∅)).
  - vm_compute. reflexivity.
  - vm_compute. reflexivity.
  - reflexivity.
Defined.

(** C4, at an engine that finds twenty-one candidates: with MAX_GRASPS
    unset the handler passes [None] as [max_grasps], the slice keeps the
    whole group and the response has twenty-one entries; with MAX_GRASPS
    set to 20 it passes the string, the slice raises, and the response is
    the error message. *)
Theorem max_grasps_from_environment_not_applied :
  (∃ resp,
     last (trace (handle_message Double.as_float32 Double.keen_engine Double.nms 7
                    Double.request (Double.started ∅)).2) =
       Some (EvSendJson 7 (PyList resp))
     ∧ length resp = 21%nat)
  ∧ last (trace (grasp_websocket Double.as_float32 Double.keen_engine Double.nms 7
                   [Message Double.request]
                   (Double.started {["MAX_GRASPS" := "20"]})).2) =
      Some (EvSendJson 7
              (error_message
                 "slice indices must be integers or None or have an __index__ method")).
Proof.
  split.
  - eexists. split; [vm_compute; reflexivity|]. reflexivity.
  - vm_compute. reflexivity.
Qed.


Lemma response_descending_witness :
  ∃ cfg p c l gg cloud resp,
    anygrasp (Double.started ∅) = Some cfg
    ∧ extract_input Double.as_float32 Double.request = inr (p, c, l)
    ∧ Double.tied_engine cfg p c l true false true = inr (gg, cloud)
    ∧ last (trace Double.answered_tied) = Some (EvSendJson 7 (PyList resp))
    ∧ (∀ i da db, resp !! i = Some da → resp !! S i = Some db →
         ∃ a b, score_of da = Some a ∧ score_of db = Some b ∧ (b <= a)%Q)
    ∧ ∃ items,
        resp = map grasp_dict items
        ∧ descending items
        ∧ ties_kept (if (0 <? length gg)%nat then Double.nms gg else gg) items
        ∧ (∀ s, with_score s items `sublist_of` with_score s gg).
Proof.
  apply (response_descending_by_score
           Double.as_float32 Double.tied_engine Double.nms 7 Double.request
           (Double.started ∅) Double.answered_tied).
  - intros gg. reflexivity.
  - vm_compute. reflexivity.
Defined.

Lemma post_process_idempotent_witness :
  post_process Double.nms (StopInt 20)
    [Double.candidate 0.95%Q; Double.candidate 0.9%Q] =
    inr [Double.candidate 0.95%Q; Double.candidate 0.9%Q]
  ∧ match post_process Double.nms (StopInt 20)
            [Double.candidate 0.95%Q; Double.candidate 0.9%Q] with
    | inr y => post_process Double.nms (StopInt 20) y
    | inl e => inl e
    end =
    post_process Double.nms (StopInt 20)
      [Double.candidate 0.95%Q; Double.candidate 0.9%Q].
Proof.
  apply (post_process_idempotent Double.nms (StopInt 20)
           [Double.candidate 0.95%Q; Double.candidate 0.9%Q]).
  - reflexivity.
  - intros [|[|i]] a b Ha Hb; simpl in *; [|discriminate|discriminate].
    injection Ha as <-. injection Hb as <-. vm_compute. discriminate.
  - simpl. lia.
Defined.

Lemma omitted_lims_witness :
  default_lims =
    PyList [PyFloat (-0.19)%Q; PyFloat 0.12%Q; PyFloat 0.02%Q;
            PyFloat 0.15%Q; PyFloat 0.0%Q; PyFloat 1.0%Q]
  ∧ ∃ rest,
      trace (handle_message Double.as_float32 Double.engine Double.nms 7
               Double.request (Double.started ∅)).2 =
        trace (Double.started ∅) ++
        EvGetGrasp Double.four_points_array Double.four_points_array
          (PyList [PyFloat (-0.19)%Q; PyFloat 0.12%Q; PyFloat 0.02%Q;
                   PyFloat 0.15%Q; PyFloat 0.0%Q; PyFloat 1.0%Q])
          true false true :: rest
      ∧ engine_calls rest = 0%nat.
Proof.
  apply (omitted_lims_default_to_engine
           Double.as_float32 Double.engine Double.nms 7
           [("points", Double.four_points); ("colors", Double.four_points)]
           Double.four_points_array Double.four_points_array default_lims
           Double.config (Double.started ∅)).
  - reflexivity.
  - vm_compute. reflexivity.
  - reflexivity.
Defined.

(** C9, at a cloud without points and an engine that refuses such a cloud:
    the engine is invoked with the empty arrays and the response is the
    error message, not an empty list. *)
Lemma empty_cloud_error_response :
  py_len (PyList []) = 0%nat
  ∧ grasp_websocket Double.as_float32 Double.strict_engine Double.nms 7
      [Message Double.empty_request] (Double.started ∅) =
    (inr Returned,
     {| environ := ∅; anygrasp := Some Double.config; active_connections := [];
        send_faults := [];
        trace := [EvAccept 7;
                  EvGetGrasp (NdArray []) (NdArray []) default_lims true false true;
                  EvPrint "Error processing grasp: empty point cloud";
                  EvSendJson 7 (PyDict [("error", PyStr "empty point cloud")])] |}).
Proof. split; [reflexivity|]. vm_compute. reflexivity. Qed.

Lemma empty_group_witness :
  ∃ w',
    handle_message Double.as_float32 Double.blind_engine Double.nms 7
      Double.empty_request (Double.started {["MAX_GRASPS" := "20"]}) = (inr tt, w')
    ∧ trace w' =
        trace (Double.started {["MAX_GRASPS" := "20"]}) ++
        [EvGetGrasp (NdArray []) (NdArray []) default_lims true false true;
         EvGetenv "MAX_GRASPS"; EvSendJson 7 (PyList [])].
Proof.
  apply (empty_group_empty_response
           Double.as_float32 Double.blind_engine Double.nms 7 Double.empty_request
           (NdArray []) (NdArray []) default_lims Double.config tt
           (Double.started {["MAX_GRASPS" := "20"]})).
  - vm_compute. reflexivity.
  - reflexivity.
  - reflexivity.
  - vm_compute. exact I.
Defined.

Lemma encoded_fields_witness :
  ∃ picked,
    gg_pick [Double.candidate 0.9%Q] StopNone = inr picked
    ∧ length [grasp_dict (Double.candidate 0.9%Q)] = length picked
    ∧ ∀ i g, picked !! i = Some g →
        ∃ d, [grasp_dict (Double.candidate 0.9%Q)] !! i = Some d
          ∧ (height g = None → getitem d "height" = inr (PyFloat 0.03%Q))
          ∧ (object_id g = None → getitem d "object_id" = inr (PyInt (-1)))
          ∧ (∀ h, height g = Some h → getitem d "height" = inr (PyFloat h))
          ∧ (∀ o, object_id g = Some o → getitem d "object_id" = inr (PyInt (py_int o)))
          ∧ getitem d "score" = inr (PyFloat (score g))
          ∧ getitem d "width" = inr (PyFloat (width g))
          ∧ getitem d "depth" = inr (PyFloat (depth g))
          ∧ getitem d "translation" = inr (PyList (map PyFloat (translation g)))
          ∧ getitem d "rotation_matrix" =
              inr (PyList (map (λ row, PyList (map PyFloat row)) (rotation_matrix g))).
Proof.
  apply (encoded_fields_and_defaults [Double.candidate 0.9%Q] StopNone).
  reflexivity.
Defined.

(** ** More of the server *)

Section Behaviour.

Context {F32 Cloud : Type}.
Variable as_float32 : py → result F32.
Variable py_float : string → result Q.
Variable load_net : AnyGraspConfig → option exn.
Variable get_grasp :
  AnyGraspConfig → ndarray F32 → ndarray F32 → py → bool → bool → bool →
  result (GraspGroup * Cloud).
Variable nms : GraspGroup → GraspGroup.

Implicit Types (w : world F32) (ws : WebSocket) (data : py).

Local Notation "x <- m ;; k" := (bind m (fun x => k))
  (at level 100, m at next level, right associativity).
Local Notation "m ;; k" := (bind m (fun _ => k))
  (at level 100, right associativity).

Ltac run :=
  unfold handle_message, process_grasp, send_json, next_send_fault, getenv,
    print, log, bind, lift, ret, raise; simpl.

Lemma connect_run ws w :
  connect ws w =
  (inr tt,
   {| environ := environ w; anygrasp := anygrasp w;
      active_connections := active_connections w ++ [ws];
      send_faults := send_faults w; trace := trace w ++ [EvAccept ws] |}).
Proof. reflexivity. Qed.

Lemma serve_connections ws inbox w :
  active_connections (serve as_float32 get_grasp nms ws inbox w).2 = active_connections w.
Proof.
  apply (serve_keeps as_float32 get_grasp nms active_connections ws inbox);
    [apply log_keeps_connections|done].
Qed.

(** X1: when the peer leaves, so that receiving or sending raises
    WebSocketDisconnect, the handler removes the session from the
    connection manager, prints one line, sends nothing and returns. *)
Theorem disconnect_ends_session ws inbox w w2 :
  (connect ws ;; serve as_float32 get_grasp nms ws inbox) w = (inl WebSocketDisconnect, w2) →
  ∃ w3,
    grasp_websocket as_float32 get_grasp nms ws inbox w = (inr Returned, w3)
    ∧ trace w3 = trace w2 ++ [EvPrint "Client disconnected"]
    ∧ responses ws (trace w3) = responses ws (trace w2)
    ∧ active_connections w3 = list_remove ws (active_connections w ++ [ws])
    ∧ (ws ∉ active_connections w → active_connections w3 = active_connections w).
Proof.
  intros H. unfold grasp_websocket. unfold bind at 1. unfold bind at 1 in H.
  rewrite connect_run in *. cbv beta iota in H |- *.
  set (wc0 := Build_world _ _ (active_connections w ++ [ws]) _ _) in *.
  pose proof (serve_connections ws inbox wc0) as Hc. rewrite H in Hc. simpl in Hc.
  unfold try_except. rewrite H.
  unfold bind, disconnect, print, log, ret; simpl.
  rewrite Hc, registered_snoc. eexists. split; [done|]. simpl.
  split_and!; try done.
  - unfold responses. rewrite omap_app. simpl. by rewrite app_nil_r.
  - intros Hnot. by apply list_remove_snoc.
Qed.

Lemma serve_answers ws inbox w w' :
  serve as_float32 get_grasp nms ws inbox w = (inr AwaitingMessage, w') →
  engine_calls (trace w') = engine_calls (trace w) + length inbox
  ∧ length (responses ws (trace w')) = length (responses ws (trace w)) + length inbox.
Proof.
  revert w. induction inbox as [|[d|e] rest IH]; intros w; simpl.
  - intros [= <-]. lia.
  - unfold bind.
    destruct (handle_message _ _ _ ws d w) as [[e|[]] w1] eqn:Hd; [done|].
    intros Hrest. apply IH in Hrest as [-> ->].
    apply handle_message_answered in Hd
      as (p & c & l & cfg & gg & cloud & _ & _ & _ & _ & ->).
    unfold engine_calls, responses.
    rewrite List.filter_app, omap_app, !length_app. simpl.
    rewrite Nat.eqb_refl. simpl. lia.
  - done.
Qed.

(** X2: when the handler is left waiting for a message, every message that
    arrived was answered: the session is registered, and for each message
    the engine was invoked once and one list was sent to the session. *)
Theorem waiting_handler_answered_all ws inbox w w' :
  grasp_websocket as_float32 get_grasp nms ws inbox w = (inr AwaitingMessage, w') →
  active_connections w' = active_connections w ++ [ws]
  ∧ engine_calls (trace w') = engine_calls (trace w) + length inbox
  ∧ length (responses ws (trace w')) = length (responses ws (trace w)) + length inbox.
Proof.
  unfold grasp_websocket. unfold bind at 1. rewrite connect_run. cbv beta iota.
  set (wc0 := Build_world _ _ (active_connections w ++ [ws]) _ _).
  pose proof (serve_connections ws inbox wc0) as Hc.
  unfold try_except.
  destruct (serve _ _ _ ws inbox wc0) as [[e|st] w1] eqn:Hs.
  - destruct e as [|msg];
      unfold bind, disconnect, print, log, send_json, next_send_fault, ret, raise; simpl.
    + destruct (existsb _ _); intros [= ]. 
    + destruct (send_faults w1) as [|[e'|] faults]; simpl; try done;
        destruct (existsb _ _); intros [= ].
  - intros [= -> ->]. simpl in Hc. split; [done|].
    apply serve_answers in Hs as [-> ->].
    unfold wc0, engine_calls, responses. simpl.
    rewrite List.filter_app, omap_app, !length_app. simpl. lia.
Qed.

(** X3: a request that arrives before the engine object exists fails with
    the attribute error of [None]; the engine is not invoked and nothing
    else happens. *)
Theorem engine_not_loaded_reported ws data p c l w :
  extract_input as_float32 data = inr (p, c, l) →
  anygrasp w = None →
  handle_message as_float32 get_grasp nms ws data w =
    (inl (Exception "'NoneType' object has no attribute 'get_grasp'"), w).
Proof. intros Hin Hnone. run. rewrite Hin; simpl. by rewrite Hnone. Qed.

Lemma handle_message_emits_any (P : event F32 → Prop) ws data :
  (∀ p c l, P (EvGetGrasp p c l true false true)) →
  P (EvGetenv "MAX_GRASPS") →
  (∀ d, P (EvSendJson ws d)) →
  emits P (handle_message as_float32 get_grasp nms ws data).
Proof.
  intros Hg He Hs. unfold handle_message.
  apply emits_bind; [by apply emits_silent|]. intros input.
  apply emits_bind; [by apply process_grasp_emits|]. intros r.
  apply emits_bind; [by apply getenv_emits|]. intros mg.
  apply emits_bind; [by apply emits_silent|]. intros res.
  by apply send_json_emits.
Qed.

Lemma grasp_websocket_emits_any (P : event F32 → Prop) ws inbox :
  (∀ p c l, P (EvGetGrasp p c l true false true)) →
  P (EvGetenv "MAX_GRASPS") →
  (∀ d, P (EvSendJson ws d)) →
  (∀ line, P (EvPrint line)) →
  P (EvAccept ws) →
  emits P (grasp_websocket as_float32 get_grasp nms ws inbox).
Proof.
  intros Hg He Hs Hp Ha. unfold grasp_websocket.
  apply emits_bind.
  { unfold connect. apply emits_bind; [by apply emits_log|].
    intros _. by apply emits_silent. }
  intros _. apply emits_try.
  { induction inbox as [|[d|e] rest IH]; simpl;
      [by apply emits_silent| |by apply emits_silent].
    apply emits_bind; [by apply handle_message_emits_any|]. by intros _. }
  intros [|msg].
  - apply emits_bind; [by apply emits_silent, disconnect_keeps|].
    intros _. apply emits_bind; [by apply emits_log|]. intros _. by apply emits_silent.
  - apply emits_bind; [by apply emits_log|]. intros _.
    apply emits_bind; [by apply send_json_emits|]. intros _.
    apply emits_bind; [by apply emits_silent, disconnect_keeps|].
    intros _. by apply emits_silent.
Qed.

(** X4: whatever arrives on a session, every call of the engine the
    handler makes asks for the object mask and the collision detection and
    not for dense grasps. *)
Theorem engine_options_fixed ws inbox w :
  ∃ evs,
    trace (grasp_websocket as_float32 get_grasp nms ws inbox w).2 = trace w ++ evs
    ∧ Forall fixed_options evs.
Proof. by apply grasp_websocket_emits_any. Qed.

(** X5: a request without "points", or with points that convert and
    without "colors", fails with the key error of the first key that is
    missing; the engine is not invoked and the process state is as
    before. *)
Theorem missing_array_key_reported ws members key w :
  (dict_lookup "points" members = None ∧ key = "points")
  ∨ (∃ raw p, dict_lookup "points" members = Some raw
              ∧ np_array as_float32 raw = inr p
              ∧ dict_lookup "colors" members = None ∧ key = "colors") →
  handle_message as_float32 get_grasp nms ws (PyDict members) w =
    (inl (Exception ("'" ++ key ++ "'")%string), w).
Proof.
  intros [[Hp ->]|(raw & p & Hp & Hconv & Hc & ->)];
    apply handle_message_rejects; unfold extract_input, getitem.
  - by rewrite Hp.
  - by rewrite Hp, Hconv, Hc.
Qed.

Lemma others_snoc ws (l : list WebSocket) : others ws (l ++ [ws]) = others ws l.
Proof.
  unfold others. rewrite List.filter_app. simpl.
  by rewrite Nat.eqb_refl, app_nil_r.
Qed.

Lemma others_remove ws (l : list WebSocket) : others ws (list_remove ws l) = others ws l.
Proof.
  unfold others. induction l as [|x l IH]; simpl; [done|].
  destruct (Nat.eqb_spec x ws) as [->|Hne]; simpl; [done|].
  destruct (Nat.eqb_spec x ws); [done|]. simpl. by rewrite IH.
Qed.

(** X6: whatever arrives on a session and however its handler ends, the
    other sessions stay registered as they were, in the same order. *)
Theorem other_sessions_untouched ws inbox w :
  others ws (active_connections (grasp_websocket as_float32 get_grasp nms ws inbox w).2) =
  others ws (active_connections w).
Proof.
  set (f := λ w : world F32, others ws (active_connections w)).
  assert (Hlog : ∀ ev, keeps f (log ev)) by (by intros ev w0).
  assert (Hdis : keeps f (disconnect ws)).
  { intros w0. unfold disconnect, f. destruct (existsb _ _); [|done]. simpl.
    apply others_remove. }
  assert (Hsend : ∀ d, keeps f (send_json d ws)).
  { intros d. apply send_json_keeps; [by apply next_send_fault_keeps|done]. }
  cut (keeps f (grasp_websocket as_float32 get_grasp nms ws inbox));
    [intros H; apply (H w)|].
  unfold grasp_websocket. apply keeps_bind.
  { intros w0. rewrite connect_run. unfold f. simpl. apply others_snoc. }
  intros _. apply keeps_try; [by apply serve_keeps|]. intros [|msg].
  - apply keeps_bind; [done|]. intros _. apply keeps_bind; [apply Hlog|]. by intros _ w0.
  - apply keeps_bind; [apply Hlog|]. intros _. apply keeps_bind; [done|].
    intros _. apply keeps_bind; [done|]. by intros _ w0.
Qed.

(** X7: when the handling of a message has raised and the transport
    refuses the error message too, that second exception leaves the
    handler; the session is not removed from the connection manager. *)
Theorem failed_error_send_leaves_session ws pre data rest msg e faults w w1 w2 :
  (connect ws ;; serve as_float32 get_grasp nms ws pre) w = (inr AwaitingMessage, w1) →
  handle_message as_float32 get_grasp nms ws data w1 = (inl (Exception msg), w2) →
  send_faults w2 = Some e :: faults →
  ∃ w3,
    grasp_websocket as_float32 get_grasp nms ws (pre ++ Message data :: rest) w = (inl e, w3)
    ∧ trace w3 = trace w2 ++ [EvPrint ("Error processing grasp: " ++ msg)%string]
    ∧ active_connections w3 = active_connections w ++ [ws].
Proof.
  intros Hpre Hmsg Hsend.
  unfold grasp_websocket. unfold bind at 1. unfold bind at 1 in Hpre.
  rewrite connect_run in *. cbv beta iota in Hpre |- *.
  set (wc0 := Build_world _ _ (active_connections w ++ [ws]) _ _) in *.
  pose proof (serve_connections ws pre wc0) as Hc1. rewrite Hpre in Hc1.
  pose proof (handle_message_keeps as_float32 get_grasp nms active_connections ws data
                log_keeps_connections (λ _ _ _ _ _ _, eq_refl) w1) as Hc2.
  rewrite Hmsg in Hc2. simpl in Hc1, Hc2.
  unfold try_except. rewrite (serve_app _ _ _ _ _ _ _ _ Hpre). simpl.
  unfold bind at 1. rewrite Hmsg.
  unfold bind, print, log, send_json, next_send_fault, raise; simpl.
  rewrite Hsend. simpl. eexists. split; [done|]. simpl.
  by rewrite Hc2, Hc1.
Qed.

(** X8: registering a session that is not yet registered and removing it
    again leaves the list of sessions as it was; removing it once more
    raises the value error of [list.remove]. *)
Theorem connect_disconnect_round_trip ws w :
  ws ∉ active_connections w →
  (∃ w',
     (connect ws ;; disconnect ws) w = (inr tt, w')
     ∧ active_connections w' = active_connections w
     ∧ trace w' = trace w ++ [EvAccept ws])
  ∧ ((connect ws ;; disconnect ws ;; disconnect ws) w).1 =
      inl (Exception "list.remove(x): x not in list").
Proof.
  intros Hnot.
  assert (Hmiss : existsb (Nat.eqb ws) (active_connections w) = false).
  { apply not_true_is_false. intros H. apply existsb_exists in H as (x & Hin & Heq).
    apply Nat.eqb_eq in Heq as <-. by apply Hnot, list_elem_of_In. }
  unfold bind at 1 3. rewrite connect_run. cbv beta iota.
  unfold bind, disconnect; simpl. rewrite registered_snoc. simpl.
  rewrite list_remove_snoc by done. rewrite Hmiss. split; [|done].
  eexists. by split.
Qed.

(** X9: what [prepare_grasp_data] returns is the encoding, in order, of
    the first candidates of the group; their number is that of the whole
    group for [None], the Python slice length for an integer (counted from
    the end when negative), and a string is accepted for an empty group
    alone. *)
Theorem prepare_grasp_data_encodes_prefix (gg : GraspGroup) (m : py_stop) (resp : list py) :
  prepare_grasp_data gg m = inr resp →
  resp = map grasp_dict (take (kept m (length gg)) gg)
  ∧ length resp = kept m (length gg)
  ∧ (kept m (length gg) <= length gg)%nat.
Proof.
  unfold prepare_grasp_data.
  assert (Hmain : ∀ picked,
    gg_pick gg m = inr picked →
    picked = take (kept m (length gg)) gg ∧ (kept m (length gg) <= length gg)%nat).
  { intros picked. unfold gg_pick. destruct (Nat.eqb_spec (length gg) 0) as [H0|H0].
    - intros [= <-]. apply nil_length_inv in H0 as ->. simpl.
      split; [by rewrite take_nil|]. destruct m as [|k|s]; simpl; [lia| |lia].
      destruct (Z.ltb_spec k 0); lia.
    - destruct m as [|k|s]; simpl; [| |done].
      + intros [= <-]. by rewrite firstn_all.
      + destruct (Z.ltb_spec k 0); intros [= <-].
        * split; [done|lia].
        * split; [|lia]. destruct (Nat.le_gt_cases (length gg) (Z.to_nat k)).
          -- rewrite Nat.min_l by done. by rewrite !take_ge by lia.
          -- by rewrite Nat.min_r by lia. }
  destruct (gg_pick gg m) as [e|picked]; [done|].
  intros [= <-]. destruct (Hmain picked eq_refl) as [-> Hle].
  split_and!; [done| |done].
  rewrite length_map, length_take. lia.
Qed.

Lemma handle_message_string_stop ws data p c l cfg gg cloud s w :
  extract_input as_float32 data = inr (p, c, l) →
  anygrasp w = Some cfg →
  get_grasp cfg p c l true false true = inr (gg, cloud) →
  nms_sort nms gg ≠ [] →
  environ w !! "MAX_GRASPS" = Some s →
  ∃ w',
    handle_message as_float32 get_grasp nms ws data w =
      (inl (Exception "slice indices must be integers or None or have an __index__ method"),
       w')
    ∧ trace w' = trace w ++ [EvGetGrasp p c l true false true; EvGetenv "MAX_GRASPS"]
    ∧ send_faults w' = send_faults w.
Proof.
  intros Hin Hcfg Hgg Hne Hs. run. rewrite Hin; simpl. rewrite Hcfg; simpl.
  rewrite Hgg; simpl. rewrite Hs. unfold prepare_grasp_data, gg_pick. simpl.
  destruct (nms_sort nms gg) as [|g rest]; [done|]. simpl.
  eexists. split; [done|]. simpl. by rewrite <- !app_assoc.
Qed.

(** X10: when MAX_GRASPS is set, to whatever string, and the ranked group
    is not empty, the message fails with the type error of the slice: the
    engine has been invoked once, nothing is sent to the session and the
    transport is not touched. *)
Theorem max_grasps_set_raises ws data p c l cfg gg cloud s w :
  extract_input as_float32 data = inr (p, c, l) →
  anygrasp w = Some cfg →
  get_grasp cfg p c l true false true = inr (gg, cloud) →
  nms_sort nms gg ≠ [] →
  environ w !! "MAX_GRASPS" = Some s →
  ∃ w',
    handle_message as_float32 get_grasp nms ws data w =
      (inl (Exception "slice indices must be integers or None or have an __index__ method"),
       w')
    ∧ engine_calls (trace w') = S (engine_calls (trace w))
    ∧ responses ws (trace w') = responses ws (trace w)
    ∧ send_faults w' = send_faults w.
Proof.
  intros Hin Hcfg Hgg Hne Hs.
  destruct (handle_message_string_stop ws data p c l cfg gg cloud s w
              Hin Hcfg Hgg Hne Hs) as (w' & Hrun & Ht & Hf).
  exists w'. split_and!; [done| | |done].
  - rewrite Ht. unfold engine_calls. rewrite List.filter_app, length_app. simpl. lia.
  - rewrite Ht. unfold responses. rewrite omap_app. simpl. by rewrite app_nil_r.
Qed.

(** X11: when the two float variables parse, the start-up hook builds the
    configuration from the environment, with the documented defaults and
    flags that are true for any spelling of "true", and assigns the engine
    object before it loads the network: what [load_net] raises leaves the
    hook, and the health check reports the engine as loaded either way. *)
Theorem startup_assigns_engine_before_loading w x y :
  py_float (environ_or w "MAX_GRIPPER_WIDTH" "0.1") = inr x →
  py_float (environ_or w "GRIPPER_HEIGHT" "0.03") = inr y →
  ∃ cfg,
    anygrasp (startup_event py_float load_net w).2 = Some cfg
    ∧ checkpoint_path cfg = environ w !! "CHECKPOINT_PATH"
    ∧ max_gripper_width cfg = x
    ∧ gripper_height cfg = y
    ∧ top_down_grasp cfg =
        String.eqb (lower (environ_or w "TOP_DOWN_GRASP" "false")) "true"
    ∧ debug cfg = String.eqb (lower (environ_or w "DEBUG" "false")) "true"
    ∧ (startup_event py_float load_net w).1 =
        match load_net cfg with Some e => inl e | None => inr tt end
    ∧ (health_check (startup_event py_float load_net w).2).1 =
        inr (PyDict [("status", PyStr "healthy"); ("anygrasp_loaded", PyBool true)]).
Proof.
  unfold environ_or. intros Hx Hy.
  unfold startup_event, new_AnyGraspConfig, getenv_or, getenv, set_anygrasp,
    health_check, print, log, bind, lift, ret, raise; simpl.
  rewrite Hx; simpl. rewrite Hy; simpl.
  eexists. destruct (load_net _) as [e|] eqn:Hload; simpl;
    (split; [reflexivity|]); simpl; rewrite Hload; by split_and!.
Qed.

(** X12: when a float variable of the configuration does not parse, the
    start-up hook raises what [float] raises, before the engine object is
    assigned and before the network is loaded. *)
Theorem startup_bad_float_leaves_engine_unset w e :
  py_float (environ_or w "MAX_GRIPPER_WIDTH" "0.1") = inl e →
  (startup_event py_float load_net w).1 = inl e
  ∧ anygrasp (startup_event py_float load_net w).2 = anygrasp w
  ∧ trace (startup_event py_float load_net w).2 =
      trace w ++ [EvGetenv "CHECKPOINT_PATH"; EvGetenv "MAX_GRIPPER_WIDTH"].
Proof.
  unfold environ_or. intros He.
  unfold startup_event, new_AnyGraspConfig, getenv_or, getenv, set_anygrasp,
    print, log, bind, lift, ret, raise; simpl.
  rewrite He; simpl. by rewrite <- app_assoc.
Qed.

Lemma fill_array_rows items a :
  fill_array as_float32 (PyList items) = inr a →
  ∃ rows, a = NdArray rows ∧ length rows = length items.
Proof.
  revert a. induction items as [|x rest IH]; intros a; simpl.
  - intros [= <-]. by exists [].
  - destruct (fill_array as_float32 x) as [e|ax]; [done|].
    simpl in IH.
    destruct ((fix fill_items (l : list py) : result (list (ndarray F32)) :=
                 match l with
                 | [] => inr []
                 | x0 :: rest0 =>
                     match fill_array as_float32 x0 with
                     | inl e => inl e
                     | inr a0 =>
                         match fill_items rest0 with
                         | inl e => inl e
                         | inr r => inr (a0 :: r)
                         end
                     end
                 end) rest) as [e|r]; [done|].
    destruct (IH _ eq_refl) as (rows & [= ->] & Hlen).
    intros [= <-]. exists (ax :: rows). simpl. by rewrite Hlen.
Qed.

(** X13: the arrays handed to the engine have as many rows as the request
    has points and as it has colors, each counted on its own. *)
Theorem arrays_keep_row_counts members points colors p c l :
  dict_lookup "points" members = Some (PyList points) →
  dict_lookup "colors" members = Some (PyList colors) →
  extract_input as_float32 (PyDict members) = inr (p, c, l) →
  ∃ prows crows,
    p = NdArray prows ∧ c = NdArray crows
    ∧ length prows = length points ∧ length crows = length colors.
Proof.
  intros Hp Hc. unfold extract_input, getitem, np_array. rewrite Hp.
  destruct (discover_shape (PyList points)); [|done].
  destruct (fill_array as_float32 (PyList points)) as [e|ap] eqn:Hfp; [done|].
  rewrite Hc.
  destruct (discover_shape (PyList colors)); [|done].
  destruct (fill_array as_float32 (PyList colors)) as [e|ac] eqn:Hfc; [done|].
  simpl. destruct (dict_lookup "lims" members); intros [= <- <- <-];
    apply fill_array_rows in Hfp as (prows & -> & Hpl);
    apply fill_array_rows in Hfc as (crows & -> & Hcl);
    by exists prows, crows.
Qed.

End Behaviour.

(** ** The clients *)

Section ClientBehaviour.

Variable format_float : Q → string.
Variable format_int : Z → result string.
Variable py_str : py → string.
Variable round4 : Q → Q.

Lemma out_bind_say {B} (line : string) (k : unit → Out B) :
  out_bind (say line) k = (line :: (k tt).1, (k tt).2).
Proof. reflexivity. Qed.

Lemma out_bind_lift {A B} (a : A) (k : A → Out B) :
  out_bind (out_lift (inr a)) k = k a.
Proof. unfold out_bind, out_lift. simpl. by destruct (k a). Qed.

Lemma out_bind_done {A B} (lines : list string) (a : A) (k : A → Out B) :
  out_bind (lines, inr a) k = (lines ++ (k a).1, (k a).2).
Proof. reflexivity. Qed.

Lemma out_bind_inr {A B} (m : Out A) (k : A → Out B) (b : B) :
  (out_bind m k).2 = inr b → ∃ a, m.2 = inr a ∧ (k a).2 = inr b.
Proof.
  unfold out_bind. destruct m as [lines [e|a]]; simpl; [done|]. by exists a.
Qed.

Lemma for_each_say {A} (f : A → string) (l : list A) :
  for_each l (λ x, say (f x)) = (map f l, inr tt).
Proof.
  induction l as [|x rest IH]; [done|].
  cbn [for_each map]. by rewrite out_bind_say, IH.
Qed.

(** What the loop body prints for an encoded candidate. *)
Lemma show_grasp_encoded (i : nat) (g : Grasp) :
  show_grasp format_float format_int py_str i (grasp_dict g) =
  (grasp_lines format_float py_str i g, inr tt).
Proof.
  unfold show_grasp, say_4f, grasp_lines. simpl.
  rewrite for_each_say. simpl. by rewrite map_map.
Qed.

Lemma show_first_encoded (gg pre shown post : GraspGroup) :
  gg = pre ++ shown ++ post →
  for_each (seq (length pre) (length shown))
    (λ i, out_bind (out_lift (getitem_int (PyList (map grasp_dict gg)) i))
            (λ grasp, show_grasp format_float format_int py_str i grasp)) =
  (concat (imap (λ j, grasp_lines format_float py_str (length pre + j)) shown), inr tt).
Proof.
  revert pre. induction shown as [|g shown IH]; intros pre Hgg; [done|].
  assert (Hg : map grasp_dict gg !! length pre = Some (grasp_dict g)).
  { apply list_lookup_fmap_Some. exists g. split; [done|].
    rewrite Hgg, lookup_app_r by lia. by rewrite Nat.sub_diag. }
  assert (Hitem : getitem_int (PyList (map grasp_dict gg)) (length pre) =
                  inr (grasp_dict g)) by (unfold getitem_int; by rewrite Hg).
  cbn [length seq for_each]. rewrite Hitem.
  rewrite out_bind_lift, show_grasp_encoded, out_bind_done.
  specialize (IH (pre ++ [g])). rewrite length_app in IH. cbn [length] in IH.
  rewrite Nat.add_1_r in IH. rewrite IH by (by rewrite <- app_assoc).
  cbn [fst snd imap concat]. rewrite Nat.add_0_r. do 3 f_equal.
  apply imap_ext. intros j x _. unfold compose.
  by replace (length pre + S j)%nat with (S (length pre) + j)%nat by lia.
Qed.

Lemma show_first_of_group (shown : nat) (gg : GraspGroup) :
  for_each (seq 0 (Nat.min shown (length gg)))
    (λ i, out_bind (out_lift (getitem_int (PyList (map grasp_dict gg)) i))
            (λ grasp, show_grasp format_float format_int py_str i grasp)) =
  (shown_lines format_float py_str shown gg, inr tt).
Proof.
  pose proof (show_first_encoded gg [] (take shown gg) (drop shown gg)) as H.
  simpl in H. rewrite take_drop, length_take in H. by apply H.
Qed.

Lemma rounded_scores_encoded (gg : GraspGroup) :
  comprehension (rounded_score round4) (map grasp_dict gg) =
  inr (map (λ g, PyFloat (round4 (score g))) gg).
Proof.
  induction gg as [|g rest IH]; simpl; [done|]. by rewrite IH.
Qed.

(** X14: given a list the server encoded, [display_grasps] of
    client_example.py raises nothing and prints the count, the fields of
    the first three candidates at most, height and all with four decimals,
    and the rounded scores of all candidates; for an empty list it prints
    the count and that no grasps were detected. *)
Theorem client_displays_encoded_grasps (gg : GraspGroup) :
  ClientExample.display_grasps format_float format_int py_str round4
    (PyList (map grasp_dict gg)) =
  ([newline ++ "Received " ++ pretty (length gg) ++ " grasps:"]%string
   ++ (if (length gg =? 0)%nat then ["No grasps detected."]
       else shown_lines format_float py_str 3 gg ++ [scores_line py_str round4 gg]),
   inr tt).
Proof.
  unfold ClientExample.display_grasps. cbn [len]. rewrite length_map.
  rewrite out_bind_lift, out_bind_say.
  destruct (length gg =? 0)%nat eqn:Hn; [done|].
  rewrite show_first_of_group, out_bind_done. cbn [py_iter].
  by rewrite out_bind_lift, rounded_scores_encoded, out_bind_lift.
Qed.

(** X15: given a list the server encoded, [display_grasps] of test.py
    raises nothing and prints the count, the fields of the first five
    candidates at most, the rounded scores of the first ten at most, and a
    line saying that scores were omitted exactly when there are more than
    ten candidates. *)
Theorem test_displays_encoded_grasps (gg : GraspGroup) :
  Test.display_grasps format_float format_int py_str round4
    (PyList (map grasp_dict gg)) =
  ([newline ++ "Received " ++ pretty (length gg) ++ " grasps:"]%string
   ++ (if (length gg =? 0)%nat then ["No grasps detected."]
       else shown_lines format_float py_str 5 gg
            ++ [scores_line py_str round4 (take 10 gg)]
            ++ (if (10 <? length gg)%nat then ["... (more scores omitted)"] else [])),
   inr tt).
Proof.
  unfold Test.display_grasps. cbn [len]. rewrite length_map.
  rewrite out_bind_lift, out_bind_say.
  destruct (length gg =? 0)%nat eqn:Hn; [done|].
  rewrite show_first_of_group, out_bind_done. cbn [slice_head].
  rewrite out_bind_lift. cbn [py_iter]. rewrite out_bind_lift.
  replace (take 10 (map grasp_dict gg)) with (map grasp_dict (take 10 gg))
    by apply fmap_take.
  rewrite rounded_scores_encoded, out_bind_lift, out_bind_say.
  destruct (10 <? length gg)%nat; by rewrite ?app_nil_r.
Qed.

(** X16: given the error message of the server, whatever it says, both
    [display_grasps] print that one grasp was received and then raise the
    key error of index 0: the object has one key, and it is not 0. *)
Theorem clients_raise_on_error_message (msg : string) :
  ClientExample.display_grasps format_float format_int py_str round4 (error_message msg) =
    ([newline ++ "Received 1 grasps:"]%string, inl (Exception "0"))
  ∧ Test.display_grasps format_float format_int py_str round4 (error_message msg) =
    ([newline ++ "Received 1 grasps:"]%string, inl (Exception "0")).
Proof. split; reflexivity. Qed.

Lemma out_bind_snd {A B} (m : Out A) (k : A → Out B) :
  (out_bind m k).2 = match m.2 with inl e => inl e | inr a => (k a).2 end.
Proof. by destruct m as [lines [e|a]]. Qed.

Lemma out_try_snd {A} (body : Out A) (handler : string → Out A) :
  (out_try body handler).2 =
  match body.2 with inl e => (handler (exn_str e)).2 | inr a => inr a end.
Proof. by destruct body as [lines [e|a]]. Qed.

(** X17: [test_grasp_server] never raises.  It returns the parsed
    response exactly when connecting, sending, receiving and displaying
    all go through, and the empty list when any of them raises. *)
Theorem test_grasp_server_never_raises
    (connecting : option string) (sending : py → option string)
    (receiving : py → string + py) (elapsed server_url : string)
    (points colors : list py) (workspace_limits : option py) :
  (Test.test_grasp_server format_float format_int py_str round4
     connecting sending receiving elapsed server_url points colors workspace_limits).2 =
  inr (match connecting,
             sending (Test.request_data points colors workspace_limits),
             receiving (Test.request_data points colors workspace_limits) with
       | None, None, inr grasps =>
           match (Test.display_grasps format_float format_int py_str round4 grasps).2 with
           | inr _ => grasps
           | inl _ => PyList []
           end
       | _, _, _ => PyList []
       end).
Proof.
  unfold Test.test_grasp_server.
  rewrite out_bind_snd. cbn [say snd]. rewrite out_try_snd, out_bind_snd.
  destruct connecting as [msg|]; [done|]. cbn [out_check out_ret snd].
  rewrite out_bind_snd. cbn [say snd]. rewrite out_bind_snd.
  destruct (sending _) as [msg|]; [done|]. cbn [out_check out_ret snd].
  rewrite out_bind_snd. cbn [say snd]. rewrite out_bind_snd.
  destruct (receiving _) as [msg|grasps]; [done|]. cbn [out_receive out_ret snd].
  rewrite out_bind_snd. cbn [say snd]. rewrite out_bind_snd.
  by destruct (Test.display_grasps format_float format_int py_str round4 grasps).2
    as [e|[]].
Qed.

(** X18: when the server answers with its error message, the user of
    neither client sees what it says: client_example.py prints that it
    could not communicate, with the key error 0 for a reason, and
    [test_grasp_server] prints the same and returns the empty list. *)
Theorem error_message_lost_in_clients (msg elapsed server_url : string)
    (points colors : list py) (workspace_limits : option py) :
  ClientExample.main_exchange format_float format_int py_str round4
    None (λ _, None) (λ _, inr (error_message msg)) elapsed points colors =
    (["Sending point cloud data (" ++ pretty (length points) ++ " points)...";
      "Response received in " ++ elapsed ++ " seconds";
      newline ++ "Received 1 grasps:";
      "Error communicating with server: 0"]%string, inr tt)
  ∧ Test.test_grasp_server format_float format_int py_str round4
      None (λ _, None) (λ _, inr (error_message msg)) elapsed server_url
      points colors workspace_limits =
    (["Connecting to server at " ++ server_url ++ "...";
      "Sending point cloud with " ++ pretty (length points) ++ " points...";
      "Data sent, waiting for response...";
      "Response received in " ++ elapsed ++ " seconds";
      newline ++ "Received 1 grasps:";
      "Error communicating with server: 0"]%string, inr (PyList [])).
Proof. split; reflexivity. Qed.

End ClientBehaviour.

(** ** Client and server *)

Section EndToEnd.

Context {F32 Cloud : Type}.
Variable as_float32 : py → result F32.
Variable get_grasp :
  AnyGraspConfig → ndarray F32 → ndarray F32 → py → bool → bool → bool →
  result (GraspGroup * Cloud).
Variable nms : GraspGroup → GraspGroup.
Variable format_float : Q → string.
Variable format_int : Z → result string.
Variable py_str : py → string.
Variable round4 : Q → Q.

Implicit Types (w : world F32) (ws : WebSocket).

(** X19: the limits [test_grasp_server] puts into the request when it is
    given none are those the server takes for a request without limits:
    the server handles the request as it would the same request with
    "lims" left out. *)
Theorem client_default_limits_are_servers ws w (points colors : list py) :
  Test.request_data points colors None =
    PyDict [("points", PyList points); ("colors", PyList colors); ("lims", default_lims)]
  ∧ handle_message as_float32 get_grasp nms ws (Test.request_data points colors None) w =
    handle_message as_float32 get_grasp nms ws
      (PyDict [("points", PyList points); ("colors", PyList colors)]) w.
Proof. split; reflexivity. Qed.

Lemma handle_message_none_stop ws data p c l cfg gg cloud w :
  extract_input as_float32 data = inr (p, c, l) →
  anygrasp w = Some cfg →
  get_grasp cfg p c l true false true = inr (gg, cloud) →
  environ w !! "MAX_GRASPS" = None →
  send_works w →
  ∃ w',
    handle_message as_float32 get_grasp nms ws data w = (inr tt, w')
    ∧ trace w' =
        trace w ++ [EvGetGrasp p c l true false true; EvGetenv "MAX_GRASPS";
                    EvSendJson ws (PyList (map grasp_dict (nms_sort nms gg)))].
Proof.
  intros Hin Hcfg Hgg Henv Hsend.
  unfold handle_message, process_grasp, send_json, next_send_fault, getenv,
    print, log, bind, lift, ret, raise; simpl.
  rewrite Hin; simpl. rewrite Hcfg; simpl. rewrite Hgg; simpl. rewrite Henv.
  assert (Hall : prepare_grasp_data (nms_sort nms gg) (stop_of_env None) =
                 inr (map grasp_dict (nms_sort nms gg))).
  { unfold prepare_grasp_data, gg_pick. by destruct (nms_sort nms gg). }
  rewrite Hall. simpl. unfold send_works in Hsend.
  destruct (send_faults w) as [|[e|] faults]; [|done|]; simpl;
    (eexists; split; [done|]; simpl; by rewrite <- !app_assoc).
Qed.

(** X20: when MAX_GRASPS is not set and the transport takes the send,
    a request the engine answers is answered with one list, the encoding of
    the whole ranked group, however many candidates it has: nothing is cut
    off. *)
Theorem unset_max_grasps_sends_all ws data p c l cfg gg cloud w :
  extract_input as_float32 data = inr (p, c, l) →
  anygrasp w = Some cfg →
  get_grasp cfg p c l true false true = inr (gg, cloud) →
  environ w !! "MAX_GRASPS" = None →
  send_works w →
  ∃ w' sent,
    handle_message as_float32 get_grasp nms ws data w = (inr tt, w')
    ∧ responses ws (trace w') = responses ws (trace w) ++ [PyList sent]
    ∧ sent = map grasp_dict (nms_sort nms gg)
    ∧ length sent = length (nms_sort nms gg).
Proof.
  intros Hin Hcfg Hgg Henv Hsend.
  destruct (handle_message_none_stop ws data p c l cfg gg cloud w
              Hin Hcfg Hgg Henv Hsend) as (w' & Hrun & Ht).
  exists w', (map grasp_dict (nms_sort nms gg)). split_and!; [done| |done|].
  - rewrite Ht. unfold responses. rewrite omap_app. simpl. by rewrite Nat.eqb_refl.
  - by rewrite length_map.
Qed.

Lemma test_display_encoded_ok (gg : GraspGroup) :
  (Test.display_grasps format_float format_int py_str round4
     (PyList (map grasp_dict gg))).2 = inr tt.
Proof.
  unfold Test.display_grasps. cbn [len]. rewrite length_map.
  rewrite out_bind_lift, out_bind_say.
  destruct (length gg =? 0)%nat eqn:Hn; [done|].
  rewrite show_first_of_group, out_bind_done. cbn [slice_head].
  rewrite out_bind_lift. cbn [py_iter]. rewrite out_bind_lift.
  replace (take 10 (map grasp_dict gg)) with (map grasp_dict (take 10 gg))
    by apply fmap_take.
  rewrite rounded_scores_encoded, out_bind_lift, out_bind_say.
  by destruct (10 <? length gg)%nat.
Qed.

(** X21: end to end, with MAX_GRASPS not set on the server: for a request
    of [test_grasp_server] that the server can extract and the engine
    answers, the client, receiving what the server sent, returns the
    encoding of the whole ranked group. *)
Theorem test_client_receives_ranked_group ws w cfg p c l gg cloud
    (elapsed server_url : string) (points colors : list py)
    (workspace_limits : option py) :
  extract_input as_float32 (Test.request_data points colors workspace_limits) =
    inr (p, c, l) →
  anygrasp w = Some cfg →
  get_grasp cfg p c l true false true = inr (gg, cloud) →
  environ w !! "MAX_GRASPS" = None →
  send_works w →
  (Test.test_grasp_server format_float format_int py_str round4
     None (λ _, None) (server_reply as_float32 get_grasp nms ws w)
     elapsed server_url points colors workspace_limits).2 =
    inr (PyList (map grasp_dict (nms_sort nms gg))).
Proof.
  intros Hin Hcfg Hgg Henv Hsend.
  assert (Hreply : server_reply as_float32 get_grasp nms ws w
                     (Test.request_data points colors workspace_limits) =
                   inr (PyList (map grasp_dict (nms_sort nms gg)))).
  { unfold server_reply, grasp_websocket. unfold bind at 1.
    rewrite connect_run. cbv beta iota.
    set (wc0 := Build_world _ _ (active_connections w ++ [ws]) _ _).
    destruct (handle_message_none_stop ws _ p c l cfg gg cloud wc0
                Hin Hcfg Hgg Henv Hsend) as (w' & Hrun & Ht).
    unfold try_except. cbn [serve]. unfold bind at 1. rewrite Hrun.
    unfold ret. cbn [snd]. rewrite Ht. unfold wc0. cbn [trace].
    rewrite <- app_assoc, drop_app_length. unfold responses. simpl.
    by rewrite Nat.eqb_refl. }
  unfold Test.test_grasp_server. rewrite Hreply.
  rewrite out_bind_say. cbn [snd out_check out_receive]. unfold out_ret at 1 2 3.
  rewrite !out_bind_done, !out_bind_say.
  pose proof (test_display_encoded_ok (nms_sort nms gg)) as Hok.
  destruct (Test.display_grasps format_float format_int py_str round4
              (PyList (map grasp_dict (nms_sort nms gg)))) as [lines r].
  simpl in Hok. by subst r.
Qed.

(** X22: end to end, with MAX_GRASPS set on the server, to whatever value:
    for a request of [test_grasp_server] for which the ranked group is not
    empty, the server sends its error message and the client returns the
    empty list. *)
Theorem test_client_gets_nothing_when_max_grasps_set ws w cfg p c l gg cloud s
    (elapsed server_url : string) (points colors : list py)
    (workspace_limits : option py) :
  extract_input as_float32 (Test.request_data points colors workspace_limits) =
    inr (p, c, l) →
  anygrasp w = Some cfg →
  get_grasp cfg p c l true false true = inr (gg, cloud) →
  nms_sort nms gg ≠ [] →
  environ w !! "MAX_GRASPS" = Some s →
  send_works w →
  server_reply as_float32 get_grasp nms ws w
    (Test.request_data points colors workspace_limits) =
    inr (error_message
           "slice indices must be integers or None or have an __index__ method")
  ∧ (Test.test_grasp_server format_float format_int py_str round4
       None (λ _, None) (server_reply as_float32 get_grasp nms ws w)
       elapsed server_url points colors workspace_limits).2 = inr (PyList []).
Proof.
  intros Hin Hcfg Hgg Hne Henv Hsend.
  assert (Hreply : server_reply as_float32 get_grasp nms ws w
                     (Test.request_data points colors workspace_limits) =
                   inr (error_message
                          "slice indices must be integers or None or have an __index__ method")).
  { unfold server_reply, grasp_websocket. unfold bind at 1.
    rewrite connect_run. cbv beta iota.
    set (wc0 := Build_world _ _ (active_connections w ++ [ws]) _ _).
    destruct (handle_message_string_stop as_float32 get_grasp nms ws _ p c l cfg gg cloud s wc0
                Hin Hcfg Hgg Hne Henv) as (w' & Hrun & Ht & Hf).
    unfold try_except. cbn [serve]. unfold bind at 1. rewrite Hrun.
    unfold bind, print, log, send_json, next_send_fault, disconnect, ret; simpl.
    unfold send_works in Hsend.
    assert (Hreg : existsb (Nat.eqb ws) (active_connections w') = true).
    { pose proof (handle_message_keeps as_float32 get_grasp nms active_connections ws
                    (Test.request_data points colors workspace_limits)
                    log_keeps_connections (λ _ _ _ _ _ _, eq_refl) wc0) as Hk.
      rewrite Hrun in Hk. simpl in Hk. rewrite Hk. apply registered_snoc. }
    rewrite Hf. simpl.
    destruct (send_faults w) as [|[e|] faults]; [|done|]; simpl;
      rewrite Hreg; simpl; rewrite Ht; simpl; rewrite <- !app_assoc;
      rewrite drop_app_length; unfold responses; simpl;
      by rewrite Nat.eqb_refl. }
  split; [done|].
  unfold Test.test_grasp_server. rewrite Hreply. reflexivity.
Qed.

End EndToEnd.

(** ** More of the handler and the clients on the test double *)

Lemma disconnect_ends_session_witness :
  ∃ w3,
    grasp_websocket Double.as_float32 Double.engine Double.nms 7
      [Message Double.request; Raised WebSocketDisconnect] (Double.started ∅) =
      (inr Returned, w3)
    ∧ trace w3 = trace Double.left ++ [EvPrint "Client disconnected"]
    ∧ responses 7 (trace w3) = responses 7 (trace Double.left)
    ∧ active_connections w3 =
        list_remove 7 (active_connections (Double.started ∅) ++ [7])
    ∧ (7 ∉ active_connections (Double.started ∅) →
       active_connections w3 = active_connections (Double.started ∅)).
Proof.
  apply (disconnect_ends_session Double.as_float32 Double.engine Double.nms 7
           [Message Double.request; Raised WebSocketDisconnect]
           (Double.started ∅) Double.left).
  vm_compute. reflexivity.
Defined.

Lemma waiting_handler_witness :
  active_connections Double.waiting = active_connections (Double.started ∅) ++ [7]
  ∧ engine_calls (trace Double.waiting) =
      (engine_calls (trace (Double.started ∅)) +
       length [Message Double.request; Message Double.request])%nat
  ∧ length (responses 7 (trace Double.waiting)) =
      (length (responses 7 (trace (Double.started ∅))) +
       length [Message Double.request; Message Double.request])%nat.
Proof.
  apply (waiting_handler_answered_all Double.as_float32 Double.engine Double.nms 7
           [Message Double.request; Message Double.request]
           (Double.started ∅) Double.waiting).
  vm_compute. reflexivity.
Defined.

Lemma engine_not_loaded_witness :
  handle_message Double.as_float32 Double.engine Double.nms 7 Double.request
    (Double.fresh ∅) =
  (inl (Exception "'NoneType' object has no attribute 'get_grasp'"), Double.fresh ∅).
Proof.
  apply (engine_not_loaded_reported Double.as_float32 Double.engine Double.nms 7
           Double.request Double.four_points_array Double.four_points_array
           default_lims (Double.fresh ∅)).
  - vm_compute. reflexivity.
  - reflexivity.
Defined.

Lemma missing_array_key_witness :
  handle_message Double.as_float32 Double.engine Double.nms 7 (PyDict [])
    (Double.started ∅) =
  (inl (Exception ("'" ++ "points" ++ "'")), Double.started ∅).
Proof.
  apply (missing_array_key_reported Double.as_float32 Double.engine Double.nms 7
           [] "points" (Double.started ∅)).
  left. split; reflexivity.
Defined.

Lemma failed_error_send_witness :
  ∃ w3,
    grasp_websocket Double.as_float32 Double.engine Double.nms 7
      ([Message Double.request] ++ Message (PyDict []) :: [])
      Double.failing_after_one =
      (inl (Exception "Cannot call send once a close message has been sent."), w3)
    ∧ trace w3 =
        trace Double.failed_failing ++
        [EvPrint ("Error processing grasp: " ++ "'points'")%string]
    ∧ active_connections w3 = active_connections Double.failing_after_one ++ [7].
Proof.
  apply (failed_error_send_leaves_session Double.as_float32 Double.engine Double.nms 7
           [Message Double.request] (PyDict []) [] "'points'"
           (Exception "Cannot call send once a close message has been sent.") []
           Double.failing_after_one Double.opened_failing Double.failed_failing).
  - vm_compute. reflexivity.
  - vm_compute. reflexivity.
  - vm_compute. reflexivity.
Defined.

Lemma connect_disconnect_witness :
  (∃ w',
     bind (connect 7) (λ _, disconnect 7) (Double.started ∅) = (inr tt, w')
     ∧ active_connections w' = active_connections (Double.started ∅)
     ∧ trace w' = trace (Double.started ∅) ++ [EvAccept 7])
  ∧ (bind (connect 7) (λ _, bind (disconnect 7) (λ _, disconnect 7))
       (Double.started ∅)).1 =
      inl (Exception "list.remove(x): x not in list").
Proof.
  apply (connect_disconnect_round_trip 7 (Double.started ∅)).
  simpl. apply not_elem_of_nil.
Defined.

Lemma prepare_grasp_data_prefix_witness :
  map grasp_dict (take 20 Double.twenty_one) =
    map grasp_dict (take (kept (StopInt 20) (length Double.twenty_one)) Double.twenty_one)
  ∧ length (map grasp_dict (take 20 Double.twenty_one)) =
      kept (StopInt 20) (length Double.twenty_one)
  ∧ (kept (StopInt 20) (length Double.twenty_one) <= length Double.twenty_one)%nat.
Proof.
  apply (prepare_grasp_data_encodes_prefix Double.twenty_one (StopInt 20)).
  vm_compute. reflexivity.
Defined.

Lemma max_grasps_set_witness :
  ∃ w',
    handle_message Double.as_float32 Double.engine Double.nms 7 Double.request
      (Double.started {["MAX_GRASPS" := "20"]}) =
      (inl (Exception "slice indices must be integers or None or have an __index__ method"),
       w')
    ∧ engine_calls (trace w') =
        S (engine_calls (trace (Double.started {["MAX_GRASPS" := "20"]})))
    ∧ responses 7 (trace w') =
        responses 7 (trace (Double.started {["MAX_GRASPS" := "20"]}))
    ∧ send_faults w' = send_faults (Double.started {["MAX_GRASPS" := "20"]}).
Proof.
  apply (max_grasps_set_raises Double.as_float32 Double.engine Double.nms 7
           Double.request Double.four_points_array Double.four_points_array
           default_lims Double.config
           [Double.candidate 0.9%Q; Double.candidate 0.95%Q] tt "20"
           (Double.started {["MAX_GRASPS" := "20"]})).
  - vm_compute. reflexivity.
  - reflexivity.
  - reflexivity.
  - vm_compute. discriminate.
  - vm_compute. reflexivity.
Defined.

Lemma startup_assigns_engine_witness :
  ∃ cfg,
    anygrasp (startup_event Double.py_float Double.load_net (Double.fresh ∅)).2 = Some cfg
    ∧ checkpoint_path cfg = environ (Double.fresh ∅) !! "CHECKPOINT_PATH"
    ∧ max_gripper_width cfg = 0.1%Q
    ∧ gripper_height cfg = 0.03%Q
    ∧ top_down_grasp cfg =
        String.eqb (lower (environ_or (Double.fresh ∅) "TOP_DOWN_GRASP" "false")) "true"
    ∧ debug cfg =
        String.eqb (lower (environ_or (Double.fresh ∅) "DEBUG" "false")) "true"
    ∧ (startup_event Double.py_float Double.load_net (Double.fresh ∅)).1 =
        match Double.load_net cfg with Some e => inl e | None => inr tt end
    ∧ (health_check (startup_event Double.py_float Double.load_net (Double.fresh ∅)).2).1 =
        inr (PyDict [("status", PyStr "healthy"); ("anygrasp_loaded", PyBool true)]).
Proof.
  apply (startup_assigns_engine_before_loading Double.py_float Double.load_net
           (Double.fresh ∅) 0.1%Q 0.03%Q).
  - vm_compute. reflexivity.
  - vm_compute. reflexivity.
Defined.

Lemma startup_bad_float_witness :
  (startup_event Double.py_float Double.load_net
     (Double.fresh {["MAX_GRIPPER_WIDTH" := "wide"]})).1 =
    inl (Exception "could not convert string to float")
  ∧ anygrasp (startup_event Double.py_float Double.load_net
                (Double.fresh {["MAX_GRIPPER_WIDTH" := "wide"]})).2 =
      anygrasp (Double.fresh {["MAX_GRIPPER_WIDTH" := "wide"]})
  ∧ trace (startup_event Double.py_float Double.load_net
             (Double.fresh {["MAX_GRIPPER_WIDTH" := "wide"]})).2 =
      trace (Double.fresh {["MAX_GRIPPER_WIDTH" := "wide"]}) ++
      [EvGetenv "CHECKPOINT_PATH"; EvGetenv "MAX_GRIPPER_WIDTH"].
Proof.
  apply (startup_bad_float_leaves_engine_unset Double.py_float Double.load_net
           (Double.fresh {["MAX_GRIPPER_WIDTH" := "wide"]})
           (Exception "could not convert string to float")).
  vm_compute. reflexivity.
Defined.

Lemma arrays_keep_row_counts_witness :
  ∃ prows crows,
    NdArray [NdArray [NdScalar 0; NdScalar 0; NdScalar 0.5]]%Q = NdArray prows
    ∧ @NdArray Q [] = NdArray crows
    ∧ length prows = length [Double.point 0 0 0.5]%Q
    ∧ length crows = length ([] : list py).
Proof.
  apply (arrays_keep_row_counts Double.as_float32
           [("points", PyList [Double.point 0 0 0.5]%Q); ("colors", PyList [])]
           [Double.point 0 0 0.5]%Q []
           (NdArray [NdArray [NdScalar 0; NdScalar 0; NdScalar 0.5]]%Q) (NdArray [])
           default_lims).
  - reflexivity.
  - reflexivity.
  - vm_compute. reflexivity.
Defined.

Lemma unset_max_grasps_witness :
  ∃ w' sent,
    handle_message Double.as_float32 Double.keen_engine Double.nms 7 Double.request
      (Double.started ∅) = (inr tt, w')
    ∧ responses 7 (trace w') = responses 7 (trace (Double.started ∅)) ++ [PyList sent]
    ∧ sent = map grasp_dict (nms_sort Double.nms Double.twenty_one)
    ∧ length sent = length (nms_sort Double.nms Double.twenty_one).
Proof.
  apply (unset_max_grasps_sends_all Double.as_float32 Double.keen_engine Double.nms 7
           Double.request Double.four_points_array Double.four_points_array
           default_lims Double.config Double.twenty_one tt (Double.started ∅)).
  - vm_compute. reflexivity.
  - reflexivity.
  - reflexivity.
  - reflexivity.
  - vm_compute. exact I.
Defined.

Lemma test_client_receives_witness :
  (Test.test_grasp_server Double.format_float Double.format_int Double.py_str
     Double.round4 None (λ _, None)
     (server_reply Double.as_float32 Double.keen_engine Double.nms 7 (Double.started ∅))
     "0.50" "ws://localhost:8000/ws/grasp" Double.four_rows Double.four_rows None).2 =
    inr (PyList (map grasp_dict (nms_sort Double.nms Double.twenty_one))).
Proof.
  apply (test_client_receives_ranked_group Double.as_float32 Double.keen_engine
           Double.nms Double.format_float Double.format_int Double.py_str Double.round4
           7 (Double.started ∅) Double.config
           Double.four_points_array Double.four_points_array default_lims
           Double.twenty_one tt).
  - vm_compute. reflexivity.
  - reflexivity.
  - reflexivity.
  - reflexivity.
  - vm_compute. exact I.
Defined.

Lemma test_client_gets_nothing_witness :
  server_reply Double.as_float32 Double.engine Double.nms 7
    (Double.started {["MAX_GRASPS" := "20"]})
    (Test.request_data Double.four_rows Double.four_rows None) =
    inr (error_message
           "slice indices must be integers or None or have an __index__ method")
  ∧ (Test.test_grasp_server Double.format_float Double.format_int Double.py_str
       Double.round4 None (λ _, None)
       (server_reply Double.as_float32 Double.engine Double.nms 7
          (Double.started {["MAX_GRASPS" := "20"]}))
       "0.50" "ws://localhost:8000/ws/grasp" Double.four_rows Double.four_rows None).2 =
      inr (PyList []).
Proof.
  apply (test_client_gets_nothing_when_max_grasps_set Double.as_float32 Double.engine
           Double.nms Double.format_float Double.format_int Double.py_str Double.round4
           7 (Double.started {["MAX_GRASPS" := "20"]}) Double.config
           Double.four_points_array Double.four_points_array default_lims
           [Double.candidate 0.9%Q; Double.candidate 0.95%Q] tt "20").
  - vm_compute. reflexivity.
  - reflexivity.
  - reflexivity.
  - vm_compute. discriminate.
  - vm_compute. reflexivity.
  - vm_compute. exact I.
Defined.
